(** * Git-CD VS Code extension: the interactive subprocess bridge

    A shallow embedding of [runGitCdCommand] and its helpers (the
    extension's main source file): the ANSI stripper, the per-chunk
    prompt detection, the question/default extraction, the answer
    write-back and the exit handlers, together with the properties the
    specification states about them.

    JavaScript strings are sequences of UTF-16 code units; they are
    modelled as lists of [N].  The regular expressions of the source are
    values of a small regex type, run by a backtracking matcher that
    follows the ECMAScript priorities (greedy before shorter, lazy
    before longer, leftmost start first). *)

From Stdlib Require Import List NArith ZArith Bool String Ascii Lia.
From Stdlib Require Import DecimalString DecimalZ DecimalPos.
Import ListNotations.

Set Implicit Arguments.

(** ** JavaScript strings *)

Module JS.

Definition char := N.
Definition jsstring := list char.

(** An ASCII literal of the source as a code-unit sequence. *)
Definition str (s : string) : jsstring :=
  map N_of_ascii (list_ascii_of_string s).

Definition chr (a : ascii) : char := N_of_ascii a.

Definition LF : char := 10%N.
Definition ESC : char := 27%N.

(** ECMAScript LineTerminator: LF, CR, LS, PS. *)
Definition isLineTerminator (c : char) : bool :=
  ((c =? 10) || (c =? 13) || (c =? 8232) || (c =? 8233))%N.

(** ECMAScript WhiteSpace or LineTerminator: what [\s], [trim] and
    [trimEnd] remove.  TAB, LF, VT, FF, CR, SP, NBSP, U+1680,
    U+2000..U+200A, LS, PS, U+202F, U+205F, U+3000, BOM. *)
Definition isWhiteSpace (c : char) : bool :=
  ((9 <=? c) && (c <=? 13) || (c =? 32) || (c =? 160) || (c =? 5760)
   || (8192 <=? c) && (c <=? 8202) || (c =? 8232) || (c =? 8233)
   || (c =? 8239) || (c =? 8287) || (c =? 12288) || (c =? 65279))%N.

Fixpoint eqb (a b : jsstring) : bool :=
  match a, b with
  | [], [] => true
  | x :: a', y :: b' => (x =? y)%N && eqb a' b'
  | _, _ => false
  end.

(** Truthiness of a string: non-empty. *)
Definition truthy (s : jsstring) : bool :=
  match s with [] => false | _ => true end.

(** [a || b] on strings. *)
Definition or_else (a b : jsstring) : jsstring :=
  if truthy a then a else b.

(** [String.prototype.includes] with a one-character needle. *)
Definition includes (c : char) (s : jsstring) : bool :=
  existsb (fun x => (x =? c)%N) s.

Fixpoint trimStart (s : jsstring) : jsstring :=
  match s with
  | c :: t => if isWhiteSpace c then trimStart t else s
  | [] => []
  end.

Fixpoint trimEnd (s : jsstring) : jsstring :=
  match s with
  | [] => []
  | c :: t =>
      match trimEnd t with
      | [] => if isWhiteSpace c then [] else [c]
      | r => c :: r
      end
  end.

Definition trim (s : jsstring) : jsstring := trimEnd (trimStart s).

(** [s.split(sep)] for a one-character separator: never the empty
    array, [''.split(sep)] is [['']]. *)
Fixpoint split (sep : char) (s : jsstring) : list jsstring :=
  match s with
  | [] => [[]]
  | c :: t =>
      if (c =? sep)%N then [] :: split sep t
      else match split sep t with
           | l :: ls => (c :: l) :: ls
           | [] => [[c]]
           end
  end.

(** [lines.join(sep)] for a one-character separator. *)
Fixpoint join (sep : char) (ls : list jsstring) : jsstring :=
  match ls with
  | [] => []
  | [l] => l
  | l :: ls' => l ++ sep :: join sep ls'
  end.

(** ASCII case mappings.  [upperAscii] is the regex Canonicalize
    of a non-unicode [/i] pattern as far as a match against an ASCII
    pattern character goes: a code unit above 127 never canonicalizes
    to one below 128.  [lowerAscii] is [toLowerCase] on ASCII text. *)
Definition upperAscii (c : char) : char :=
  if ((97 <=? c) && (c <=? 122))%N then (c - 32)%N else c.

Definition lowerAscii (c : char) : char :=
  if ((65 <=? c) && (c <=? 90))%N then (c + 32)%N else c.

Definition toLowerCase (s : jsstring) : jsstring := map lowerAscii s.

(** [`${n}`] for an integer. *)
Definition ofZ (z : Z) : jsstring :=
  str (NilZero.string_of_int (Z.to_int z)).

Definition ofBool (b : bool) : jsstring :=
  if b then str "true" else str "false".

End JS.

Import JS.

(** ** Regular expressions *)

Module RegExp.

(** The fragment the source uses: sequences of one-character classes
    with greedy star and plus, lazy plus, a greedy optional character,
    the end assertion with and without the [m] flag, and one capture
    group. *)
Inductive regex : Type :=
| Eps
| Chr (p : char -> bool)
| Star (p : char -> bool)
| Plus (p : char -> bool)
| PlusLazy (p : char -> bool)
| Opt (p : char -> bool)
| Eos
| Eol
| Group (r : regex)
| Seq (r1 r2 : regex).

Section Matcher.
Variable R : Type.

(** [p*], greedy: the longest run first, then shorter ones. *)
Fixpoint star (p : char -> bool) (s : jsstring)
         (k : jsstring -> option R) : option R :=
  match s with
  | c :: t =>
      if p c then
        match star p t k with
        | Some r => Some r
        | None => k s
        end
      else k s
  | [] => k []
  end.

(** [p*?], lazy: the shortest run first, then longer ones. *)
Fixpoint lazy_star (p : char -> bool) (s : jsstring)
         (k : jsstring -> option R) : option R :=
  match k s with
  | Some r => Some r
  | None =>
      match s with
      | c :: t => if p c then lazy_star p t k else None
      | [] => None
      end
  end.

(** [rmatch r s cap k]: match [r] at the head of [s]; the
    continuation receives what is left of the input and the text
    of capture group 1. *)
Fixpoint rmatch (r : regex) (s : jsstring) (cap : option jsstring)
         (k : jsstring -> option jsstring -> option R) : option R :=
  match r with
  | Eps => k s cap
  | Chr p =>
      match s with
      | c :: t => if p c then k t cap else None
      | [] => None
      end
  | Star p => star p s (fun s' => k s' cap)
  | Plus p =>
      match s with
      | c :: t => if p c then star p t (fun s' => k s' cap) else None
      | [] => None
      end
  | PlusLazy p =>
      match s with
      | c :: t => if p c then lazy_star p t (fun s' => k s' cap) else None
      | [] => None
      end
  | Opt p =>
      match s with
      | c :: t =>
          if p c then
            match k t cap with
            | Some r => Some r
            | None => k s cap
            end
          else k s cap
      | [] => k s cap
      end
  | Eos => match s with [] => k s cap | _ :: _ => None end
  | Eol =>
      match s with
      | [] => k s cap
      | c :: _ => if isLineTerminator c then k s cap else None
      end
  | Group r' =>
      rmatch r' s cap
             (fun s' _ =>
                k s' (Some (firstn (List.length s - List.length s') s)))
  | Seq r1 r2 =>
      rmatch r1 s cap (fun s' cap' => rmatch r2 s' cap' k)
  end.
End Matcher.

(** A match at the head of [s]: the rest of the input and group 1. *)
Definition match_here (r : regex) (s : jsstring)
  : option (jsstring * option jsstring) :=
  rmatch r s None (fun s' cap => Some (s', cap)).

(** Leftmost match: every start position from the left, the end of
    the input included. *)
Fixpoint exec (r : regex) (s : jsstring)
  : option (jsstring * option jsstring) :=
  match match_here r s with
  | Some m => Some m
  | None =>
      match s with
      | [] => None
      | _ :: t => exec r t
      end
  end.

(** [r.test(s)] for a regex without the [g] flag. *)
Definition test (r : regex) (s : jsstring) : bool :=
  match exec r s with Some _ => true | None => false end.

(** [s.match(r)[1]] for a regex without the [g] flag; [None] when
    there is no match. *)
Definition match_group1 (r : regex) (s : jsstring) : option jsstring :=
  match exec r s with
  | Some (_, Some g) => Some g
  | Some (_, None) => Some []
  | None => None
  end.

(** [s.replace(r, '')] without the [g] flag: the first match goes. *)
Fixpoint replace_first (r : regex) (s : jsstring) : jsstring :=
  match match_here r s with
  | Some (s', _) => s'
  | None =>
      match s with
      | [] => []
      | c :: t => c :: replace_first r t
      end
  end.

(** [s.replace(r, '')] with the [g] flag: every match goes, the
    search resuming after each one.  [skip] counts the characters of
    the current match still to drop; after an empty match the search
    moves on by one character, which is kept. *)
Fixpoint replace_all_from (r : regex) (skip : nat) (s : jsstring)
  : jsstring :=
  match s with
  | [] => []
  | c :: t =>
      match skip with
      | S n => replace_all_from r n t
      | O =>
          match match_here r s with
          | Some (s', _) =>
              match List.length s - List.length s' with
              | O => c :: replace_all_from r 0 t
              | S n => replace_all_from r n t
              end
          | None => c :: replace_all_from r 0 t
          end
      end
  end.

Definition replace_all (r : regex) (s : jsstring) : jsstring :=
  replace_all_from r 0 s.

(** Character classes. *)
Definition lit (a : ascii) : char -> bool := fun c => (c =? chr a)%N.
Definition lit_i (a : ascii) : char -> bool :=
  fun c => (upperAscii c =? upperAscii (chr a))%N.
Definition space : char -> bool := isWhiteSpace.
Definition dot : char -> bool := fun c => negb (isLineTerminator c).

(** A literal run of pattern characters, [ci] for the [i] flag. *)
Fixpoint lits (ci : bool) (s : string) : regex :=
  match s with
  | EmptyString => Eps
  | String a s' => Seq (Chr (if ci then lit_i a else lit a)) (lits ci s')
  end.

(** A pattern written as the sequence of its parts. *)
Definition seq (rs : list regex) : regex := fold_right Seq Eps rs.

End RegExp.

Import RegExp.

(** ** The helpers of the stdout handler *)

Definition isAnsiParam (c : char) : bool :=
  ((48 <=? c) && (c <=? 57) || (c =? 59))%N.

(** [/\x1b\[[0-9;]*m/g] *)
Definition ansiPattern : regex :=
  seq [Chr (lit "027"); Chr (lit "["); Star isAnsiParam; Chr (lit "m")].

(** [stripAnsiCodes]: [text.replace(/\x1b\[[0-9;]*m/g, '')]. *)
Definition stripAnsiCodes (text : jsstring) : jsstring :=
  replace_all ansiPattern text.

(** [cleanOutput.split('\n').map(line => line.trimEnd()).join('\n')] *)
Definition trimLines (cleanOutput : jsstring) : jsstring :=
  join LF (map trimEnd (split LF cleanOutput)).

(** What the handler appends to the output channel for a raw chunk:
    the specification's [sanitize]. *)
Definition sanitize (output : jsstring) : jsstring :=
  trimLines (stripAnsiCodes output).

(** [yesNoPatterns]: [/\[y\/n\]/i] and [/\(yes\/no\)/i]. *)
Definition yesNoPatterns : list regex :=
  [ lits true "[y/n]"; lits true "(yes/no)" ].

(** [textInputPatterns]: [/\?\s*$/], [/Default:\s*.+$/m],
    [/continue\?/i], [/proceed\?/i], [/do you want/i]. *)
Definition textInputPatterns : list regex :=
  [ seq [Chr (lit "?"); Star space; Eos];
    seq [lits false "Default:"; Star space; Plus dot; Eol];
    lits true "continue?";
    lits true "proceed?";
    lits true "do you want" ].

Definition hasYesNoQuestion (cleanOutput : jsstring) : bool :=
  existsb (fun pattern => test pattern cleanOutput) yesNoPatterns.

Definition hasTextInputQuestion (cleanOutput : jsstring) : bool :=
  existsb (fun pattern => test pattern cleanOutput) textInputPatterns.

(** [/Default:\s*(.+?)$/m] *)
Definition defaultPattern : regex :=
  seq [lits false "Default:"; Star space; Group (PlusLazy dot); Eol].

(** [/\s*\[y\/n\]\s*:?\s*$/i] and [/\s*\(yes\/no\)\s*:?\s*$/i] *)
Definition trailingMarker (marker : string) : regex :=
  seq [Star space; lits true marker; Star space; Opt (lit_i ":");
       Star space; Eos].

(** The loop [for (i = lines.length - 1; i >= 0; i--)], on the lines in
    reverse order: the trimmed text of the last line with a ['?'], or
    [''] when there is none. *)
Fixpoint lastQuestionLine (reversed : list jsstring) : jsstring :=
  match reversed with
  | [] => []
  | l :: rest =>
      let line := trim l in
      if includes (chr "?") line then line else lastQuestionLine rest
  end.

(** [xs.pop()] as a value: the last element, if any. *)
Fixpoint pop (xs : list jsstring) : option jsstring :=
  match xs with
  | [] => None
  | [x] => Some x
  | _ :: xs' => pop xs'
  end.

(** [v || d] where [v] may be [undefined]. *)
Definition orDefault (v : option jsstring) (d : jsstring) : jsstring :=
  match v with
  | Some a => or_else a d
  | None => d
  end.

(** The question text before the marker is removed: lines 275 to 293 of
    the handler. *)
Definition extractQuestion (cleanPendingOutput cleanOutput : jsstring)
  : jsstring :=
  let lines := split LF (trim cleanPendingOutput) in
  let questionText := lastQuestionLine (rev lines) in
  if truthy questionText then questionText
  else orDefault (pop (filter (fun l => truthy (trim l)) lines))
                 (trim cleanOutput).

(** Lines 296 to 299. *)
Definition extractDefault (cleanPendingOutput : jsstring) : jsstring :=
  match match_group1 defaultPattern cleanPendingOutput with
  | Some g => trim g
  | None => []
  end.

(** Lines 303 and 304. *)
Definition stripMarker (questionText : jsstring) : jsstring :=
  replace_first (trailingMarker "(yes/no)")
                (replace_first (trailingMarker "[y/n]") questionText).

(** ** Effects, prompts and the session *)

Inductive QuickPickItem : Type := Yes | No.

Definition label (i : QuickPickItem) : jsstring :=
  match i with Yes => str "Yes" | No => str "No" end.

(** Everything the code does to the outside, in the order it does it. *)
Inductive Effect : Type :=
| ChannelShow
| ChannelAppend (text : jsstring)
| ChannelAppendLine (text : jsstring)
| ShowErrorMessage (message : jsstring) (items : list jsstring)
| ShowInformationMessage (message : jsstring)
| ShowQuickPick (items : list jsstring) (placeHolder title : jsstring)
| ShowInputBox (prompt value placeHolder : jsstring)
| Spawn (command : jsstring) (argv : list jsstring) (cwd : jsstring)
        (env : list (jsstring * jsstring))
| StdinWrite (text : jsstring)
| Kill.

(** A handler suspended at its [await]. *)
Inductive Prompt : Type :=
| QuickPick (questionText : jsstring)
| InputBox (questionText defaultValue : jsstring).

(** What the awaited call resolves to; [None] is [undefined], the
    dismissal. *)
Inductive Answer : Type :=
| Picked (answer : option QuickPickItem)
| Entered (answer : option jsstring).

(** The promise [runGitCdCommand] returns. *)
Inductive Promise : Type :=
| Pending
| Fulfilled
| Rejected (message : jsstring).

(** [resolve] and [reject] settle a promise once. *)
Definition settle (p new : Promise) : Promise :=
  match p with
  | Pending => new
  | _ => p
  end.

(** The variables the handlers close over, the effects so far, and the
    handlers waiting for the user. *)
Record Session : Type := mkSession {
  args : list jsstring;
  stdout : jsstring;
  stderr : jsstring;
  pendingOutput : jsstring;
  trace : list Effect;
  promise : Promise;
  awaiting : list Prompt
}.

Definition emit (es : list Effect) (s : Session) : Session :=
  mkSession (args s) (stdout s) (stderr s) (pendingOutput s)
            (trace s ++ es) (promise s) (awaiting s).

Definition setPending (p : jsstring) (s : Session) : Session :=
  mkSession (args s) (stdout s) (stderr s) p
            (trace s) (promise s) (awaiting s).

Definition setPromise (p : Promise) (s : Session) : Session :=
  mkSession (args s) (stdout s) (stderr s) (pendingOutput s)
            (trace s) p (awaiting s).

Definition setAwaiting (a : list Prompt) (s : Session) : Session :=
  mkSession (args s) (stdout s) (stderr s) (pendingOutput s)
            (trace s) (promise s) a.

(** ** The stdout handler *)

(** The handler from the arrival of a chunk to its [await] (or to its
    end when no prompt is shown).  [writable] is [child.stdin.writable]
    at that moment.  The result is the session and the prompt the
    handler now waits on. *)
Definition onStdoutData (s : Session) (data : jsstring) (writable : bool)
  : Session * option Prompt :=
  let output := data in
  let cleanOutput := stripAnsiCodes output in
  let cleanedLines := trimLines cleanOutput in
  let pendingOutput' := pendingOutput s ++ output in
  let s1 :=
    mkSession (args s) (stdout s ++ output) (stderr s) pendingOutput'
              (trace s ++ [ChannelAppend cleanedLines])
              (promise s) (awaiting s) in
  if (hasYesNoQuestion cleanOutput || hasTextInputQuestion cleanOutput)
     && writable
  then
    let cleanPendingOutput := stripAnsiCodes pendingOutput' in
    let questionText := extractQuestion cleanPendingOutput cleanOutput in
    let defaultValue := extractDefault cleanPendingOutput in
    if hasYesNoQuestion cleanOutput then
      let questionText := stripMarker questionText in
      (emit [ShowQuickPick [str "Yes"; str "No"] questionText
                           (str "Git-CD Question")] s1,
       Some (QuickPick questionText))
    else
      (emit [ShowInputBox questionText defaultValue
                          (if truthy defaultValue
                           then str "Default: " ++ defaultValue
                           else str "Enter value")] s1,
       Some (InputBox questionText defaultValue))
  else (s1, None).

(** The handler after its [await]: lines 312 to 340.  An answer of the
    other dialog's kind cannot arrive. *)
Definition resume (p : Prompt) (a : Answer) (s : Session) : option Session :=
  match p, a with
  | QuickPick _, Picked (Some answer) =>
      let response := toLowerCase (label answer) ++ [LF] in
      Some (setPending []
              (emit [StdinWrite response;
                     ChannelAppendLine
                       (str "[User selected: " ++ label answer ++ str "]")]
                    s))
  | QuickPick _, Picked None =>
      Some (setPending [] (emit [StdinWrite (str "no" ++ [LF]); Kill] s))
  | InputBox _ _, Entered (Some answer) =>
      let response := answer ++ [LF] in
      Some (setPending []
              (emit [StdinWrite response;
                     ChannelAppendLine
                       (str "[User entered: "
                        ++ or_else answer (str "(empty - using default)")
                        ++ str "]")]
                    s))
  | InputBox _ _, Entered None =>
      Some (setPending [] (emit [Kill] s))
  | _, _ => None
  end.

(** ** The other handlers *)

(** [child.stderr.on('data', ...)] *)
Definition onStderrData (s : Session) (data : jsstring) : Session :=
  mkSession (args s) (stdout s) (stderr s ++ data) (pendingOutput s)
            (trace s ++ [ChannelAppend (trimLines (stripAnsiCodes data))])
            (promise s) (awaiting s).

(** [child.on('error', ...)] *)
Definition onError (s : Session) (message : jsstring) : Session :=
  setPromise (settle (promise s) (Rejected message))
    (emit [ChannelAppendLine (str "Error: " ++ message);
           ShowErrorMessage (str "Git-CD error: " ++ message)
                            [str "Open Settings"]] s).

(** [`${code}`] for the [code] of a close event: a number or [null]. *)
Definition ofCode (code : option Z) : jsstring :=
  match code with
  | Some z => ofZ z
  | None => str "null"
  end.

(** [`${args[0]}`] *)
Definition arg0 (s : Session) : jsstring :=
  nth 0 (args s) (str "undefined").

(** [child.on('close', ...)] *)
Definition onClose (s : Session) (code : option Z) : Session :=
  let s1 := emit [ChannelAppendLine []] s in
  match code with
  | Some 0%Z =>
      setPromise (settle (promise s1) Fulfilled)
        (emit [ShowInformationMessage
                 (str "Git-CD: " ++ arg0 s ++ str " completed successfully")]
              s1)
  | _ =>
      setPromise
        (settle (promise s1)
                (Rejected (str "Process exited with code " ++ ofCode code)))
        (emit [ChannelAppendLine
                 (str "Process exited with code " ++ ofCode code);
               ShowErrorMessage
                 (str "Git-CD " ++ arg0 s ++ str " failed with code "
                  ++ ofCode code) []]
              s1)
  end.

(** ** The event loop *)

Inductive Event : Type :=
| StdoutData (data : jsstring) (writable : bool)
| StderrData (data : jsstring)
| ErrorEvent (message : jsstring)
| CloseEvent (code : option Z)
| Answered (i : nat) (a : Answer).

Fixpoint remove_nth {A : Type} (i : nat) (l : list A) : list A :=
  match i, l with
  | _, [] => []
  | O, _ :: t => t
  | S j, x :: t => x :: remove_nth j t
  end.

(** One turn of the event loop.  [Answered i a] resolves the [i]-th
    waiting dialog; it is [None] when no such dialog waits or the
    answer is of the other kind. *)
Definition step (s : Session) (e : Event) : option Session :=
  match e with
  | StdoutData data writable =>
      match onStdoutData s data writable with
      | (s', Some p) => Some (setAwaiting (awaiting s' ++ [p]) s')
      | (s', None) => Some s'
      end
  | StderrData data => Some (onStderrData s data)
  | ErrorEvent message => Some (onError s message)
  | CloseEvent code => Some (onClose s code)
  | Answered i a =>
      match nth_error (awaiting s) i with
      | Some p => resume p a (setAwaiting (remove_nth i (awaiting s)) s)
      | None => None
      end
  end.

Fixpoint run (s : Session) (es : list Event) : option Session :=
  match es with
  | [] => Some s
  | e :: es' =>
      match step s e with
      | Some s' => run s' es'
      | None => None
      end
  end.

(** What the detection of lines 270 to 273 and 301 decides for a chunk
    already stripped of its colour codes. *)
Inductive Classification : Type := NoPrompt | Binary | FreeText.

Definition classify (cleanOutput : jsstring) : Classification :=
  if hasYesNoQuestion cleanOutput then Binary
  else if hasTextInputQuestion cleanOutput then FreeText
  else NoPrompt.

Definition kind (p : option Prompt) : Classification :=
  match p with
  | None => NoPrompt
  | Some (QuickPick _) => Binary
  | Some (InputBox _ _) => FreeText
  end.

(** ** [runGitCdCommand] up to the spawn *)

(** What the function reads from its host: the setting
    [showOutputOnExecution], the path of the first workspace folder, the
    extension path, the two paths [getPythonAndGitcdPaths(context)]
    returns, the file system as [fs.existsSync] sees it, the result of
    [findSshAuthSocket()], [process.env], [os.homedir()] and
    [os.userInfo().username]. *)
Record Host : Type := mkHost {
  showOutputOnExecution : bool;
  workspaceFolder : option jsstring;
  extensionPath : jsstring;
  pythonPath : jsstring;
  gitcdPath : jsstring;
  existsSync : jsstring -> bool;
  sshAuthSock : option jsstring;
  processEnv : list (jsstring * jsstring);
  homedir : jsstring;
  username : jsstring
}.

Fixpoint getenv (name : jsstring) (env : list (jsstring * jsstring))
  : option jsstring :=
  match env with
  | [] => None
  | (k, v) :: rest => if JS.eqb k name then Some v else getenv name rest
  end.

(** An assignment to a key of the environment object; the newest
    binding of a name is the one [getenv] finds. *)
Definition setenv (name value : jsstring) (env : list (jsstring * jsstring))
  : list (jsstring * jsstring) :=
  (name, value) :: env.

(** The object [env] of lines 208 to 225. *)
Definition childEnv (h : Host) : list (jsstring * jsstring) :=
  let env :=
    setenv (str "GIT_TERMINAL_PROMPT") (str "0")
      (setenv (str "GITCD_INTERACTIVE") (str "false")
         (setenv (str "USER")
                 (orDefault (getenv (str "USER") (processEnv h)) (username h))
            (setenv (str "HOME") (homedir h) (processEnv h)))) in
  let env :=
    match sshAuthSock h with
    | Some sock => if truthy sock then setenv (str "SSH_AUTH_SOCK") sock env
                   else env
    | None => env
    end in
  match getenv (str "GPG_TTY") (processEnv h) with
  | Some tty => if truthy tty then setenv (str "GPG_TTY") tty env else env
  | None => env
  end.

(** How a call of [runGitCdCommand] goes on: it returns before the
    spawn, its promise then fulfilled with no value, or it has spawned
    the child and the handlers of the session run. *)
Inductive Invocation : Type :=
| Returned (effects : list Effect)
| Running (s : Session).

Definition openSettings : list jsstring := [str "Open Settings"].

Definition checkingPaths (h : Host) : list Effect :=
  [ ChannelAppendLine (str "Checking paths...");
    ChannelAppendLine (str "Extension path: " ++ extensionPath h);
    ChannelAppendLine
      (str "Python: " ++ pythonPath h ++ str " (exists: "
       ++ ofBool (existsSync h (pythonPath h)) ++ str ")");
    ChannelAppendLine
      (str "Git-CD: " ++ gitcdPath h ++ str " (exists: "
       ++ ofBool (existsSync h (gitcdPath h)) ++ str ")") ].

Definition pythonNotFound (h : Host) : jsstring :=
  str "Python not found at: " ++ pythonPath h
  ++ str ". Please check settings.".

Definition gitcdNotFound (h : Host) : jsstring :=
  str "Git-CD not found at: " ++ gitcdPath h
  ++ str ". Please check settings or reinstall extension.".

(** [args.join(' ')] *)
Definition joinArgs (a : list jsstring) : jsstring := join 32%N a.

Definition runGitCdCommand (h : Host) (a : list jsstring) : Invocation :=
  match workspaceFolder h with
  | None => Returned [ShowErrorMessage (str "No workspace folder open") []]
  | Some fsPath =>
      let t0 := if showOutputOnExecution h then [ChannelShow] else [] in
      let t1 := t0 ++ checkingPaths h in
      if negb (existsSync h (pythonPath h)) then
        Returned (t1 ++ [ShowErrorMessage (pythonNotFound h) openSettings])
      else if negb (existsSync h (gitcdPath h)) then
        Returned (t1 ++ [ShowErrorMessage (gitcdNotFound h) openSettings])
      else
        let t2 :=
          t1 ++
          [ ChannelAppendLine (str "Running: git-cd " ++ joinArgs a);
            ChannelAppendLine (str "Working directory: " ++ fsPath);
            ChannelAppendLine
              (str "SSH_AUTH_SOCK: "
               ++ orDefault (sshAuthSock h) (str "(not found)"));
            ChannelAppendLine (str "---");
            Spawn (pythonPath h) (gitcdPath h :: a) fsPath (childEnv h) ] in
        Running (mkSession a [] [] [] t2 Pending [])
  end.

Definition isSpawn (e : Effect) : bool :=
  match e with Spawn _ _ _ _ => true | _ => false end.

Definition isErrorMessage (e : Effect) : bool :=
  match e with ShowErrorMessage _ _ => true | _ => false end.

Definition isStdinWrite (e : Effect) : bool :=
  match e with StdinWrite _ => true | _ => false end.

Definition isKill (e : Effect) : bool :=
  match e with Kill => true | _ => false end.

(** The three preconditions of the specification's Supervisor, in the
    order the code checks them, and the error notification each one
    leads to when it is the first to fail. *)
Inductive Precondition : Type :=
| WorkspaceKnown
| InterpreterExists
| ExecutableExists.

Definition holds (h : Host) (p : Precondition) : bool :=
  match p with
  | WorkspaceKnown =>
      match workspaceFolder h with Some _ => true | None => false end
  | InterpreterExists => existsSync h (pythonPath h)
  | ExecutableExists => existsSync h (gitcdPath h)
  end.

Definition firstFailing (h : Host) : option Precondition :=
  find (fun p => negb (holds h p))
       [WorkspaceKnown; InterpreterExists; ExecutableExists].

Definition failureReport (h : Host) (p : Precondition) : Effect :=
  match p with
  | WorkspaceKnown => ShowErrorMessage (str "No workspace folder open") []
  | InterpreterExists => ShowErrorMessage (pythonNotFound h) openSettings
  | ExecutableExists => ShowErrorMessage (gitcdNotFound h) openSettings
  end.

(** The specification's binary patterns, in its own words: the text
    contains the marker [[y/n]] or [(yes/no)] somewhere, in any
    letter-casing. *)
Definition containsIgnoringCase (marker : string) (text : jsstring) : Prop :=
  exists pre mid post,
    text = pre ++ mid ++ post /\
    map upperAscii mid = map upperAscii (str marker).

Definition matchesBinaryPattern (text : jsstring) : Prop :=
  containsIgnoringCase "[y/n]" text \/ containsIgnoringCase "(yes/no)" text.

(** What a match of [ansiPattern] at the head of a text leaves: after
    ESC and [[], the run of parameter characters must end in [m]. *)
Fixpoint skipParams (s : jsstring) : jsstring :=
  match s with
  | c :: t => if isAnsiParam c then skipParams t else s
  | [] => []
  end.

Definition afterParams (s : jsstring) : option jsstring :=
  match skipParams s with
  | c :: t => if (c =? 109)%N then Some t else None
  | [] => None
  end.

Definition ansiRest (s : jsstring) : option jsstring :=
  match s with
  | c1 :: c2 :: t =>
      if ((c1 =? 27) && (c2 =? 91))%N then afterParams t else None
  | _ => None
  end.

(** A text that is empty or starts with a line feed: what follows the
    last character of a line. *)
Definition endsLine (r : jsstring) : bool :=
  match r with
  | [] => true
  | x :: _ => (x =? LF)%N
  end.

(** What follows the first line in the joined text. *)
Definition afterFirstLine (ls : list jsstring) : jsstring :=
  match ls with
  | [] => []
  | _ :: _ => LF :: join LF ls
  end.

(** A prompt is handled by the effects [es] when they write to the
    child's stdin or kill the child. *)
Definition handledBy (es : list Effect) : bool :=
  existsb (fun e => isStdinWrite e || isKill e) es.

(** The chunks that arrived since the last handled prompt, on top of
    what the buffer held before the events. *)
Definition pendingAfter (es : list Event) (before : jsstring) : jsstring :=
  fold_left (fun acc e =>
               match e with
               | StdoutData data _ => acc ++ data
               | Answered _ _ => []
               | _ => acc
               end) es before.

(** The events of a session, once the call has spawned its child. *)
Definition thenRun (i : Invocation) (es : list Event) : option Session :=
  match i with
  | Running s => run s es
  | Returned _ => None
  end.

(** ** Concrete inputs used by the examples *)

Definition demoHost : Host :=
  mkHost true (Some (str "/work/repo")) (str "/ext")
         (str "/ext/python-env/bin/python") (str "/ext/python-env/bin/git-cd")
         (fun _ => true) None [] (str "/home/dev") (str "dev").

(** The same host with no [git-cd] at the configured path. *)
Definition hostWithoutGitcd : Host :=
  mkHost true (Some (str "/work/repo")) (str "/ext")
         (str "/ext/python-env/bin/python") (str "/ext/python-env/bin/git-cd")
         (fun p => JS.eqb p (str "/ext/python-env/bin/python"))
         None [] (str "/home/dev") (str "dev").

(** A session just spawned for [git-cd finish], with an empty trace. *)
Definition fresh : Session :=
  mkSession [str "finish"] [] [] [] [] Pending [].

(** [fresh] after the chunk ["Delete branch foo? [y/n]: "]: a quick
    pick waits for the user. *)
Definition askedBinary : Session :=
  match step fresh (StdoutData (str "Delete branch foo? [y/n]: ") true) with
  | Some s => s
  | None => fresh
  end.

(** [fresh] after the chunk ["Enter branch name?\nDefault: main"]: an
    input box waits for the user. *)
Definition askedText : Session :=
  match step fresh (StdoutData (str "Enter branch name?" ++ LF ::
                                str "Default: main") true) with
  | Some s => s
  | None => fresh
  end.

(** ESC [ ESC [ m m: a colour sequence split by another one. *)
Definition nestedAnsi : jsstring := [27; 91; 27; 91; 109; 109]%N.

(** [nestedAnsi] is itself the result of sanitizing: one more nesting. *)
Definition nestedAnsi3 : jsstring :=
  [27; 91; 27; 91; 27; 91; 109; 109; 109]%N.

(** A line in red with trailing blanks: ESC [ 31 m failed ESC [ 0 m. *)
Definition colouredLine : jsstring :=
  [27; 91; 51; 49; 109]%N ++ str "failed" ++ [27; 91; 48; 109; 32; 32]%N.

(** * The rest of the extension *)

(** ** Settings and the machine *)

(** [vscode.workspace.getConfiguration('gitcd')]: a setting that is not
    set is [None], and [config.get(key, default)] then gives the
    default. *)
Record Settings : Type := mkSettings {
  cfg_useBundledPython : option bool;
  cfg_pythonPath : option jsstring;
  cfg_gitcdPath : option jsstring;
  cfg_sshAuthSock : option jsstring;
  cfg_showOutputOnExecution : option bool
}.

Definition get {A : Type} (setting : option A) (default : A) : A :=
  match setting with
  | Some v => v
  | None => default
  end.

(** What the functions read beside the settings: the extension path,
    the first workspace folder, [fs.existsSync], [process.env],
    [os.homedir()], [os.userInfo()] and the platform's [path.join]. *)
Record Machine : Type := mkMachine {
  os_extensionPath : jsstring;
  os_workspaceFolder : option jsstring;
  os_existsSync : jsstring -> bool;
  os_env : list (jsstring * jsstring);
  os_homedir : jsstring;
  os_username : jsstring;
  os_uid : Z;
  os_pathJoin : list jsstring -> jsstring
}.

(** ** [findSshAuthSocket] *)

(** The array [possiblePaths] of lines 34 to 40. *)
Definition possiblePaths (m : Machine) : list jsstring :=
  [ str "/run/user/" ++ ofZ (os_uid m) ++ str "/gnupg/S.gpg-agent.ssh";
    os_homedir m ++ str "/.gnupg/S.gpg-agent.ssh";
    str "/run/user/" ++ ofZ (os_uid m) ++ str "/keyring/.ssh";
    str "/run/user/" ++ ofZ (os_uid m) ++ str "/keyring/ssh";
    str "/tmp/ssh-*/agent.*" ].

(** A value that may be [undefined] is usable when it is a non-empty
    string naming an existing file: [v && fs.existsSync(v)]. *)
Definition usable (m : Machine) (v : jsstring) : bool :=
  truthy v && os_existsSync m v.

Definition findSshAuthSocket (cfg : Settings) (m : Machine)
  : option jsstring :=
  let configuredSocket := get (cfg_sshAuthSock cfg) [] in
  if usable m configuredSocket then Some configuredSocket
  else
    let fromEnv :=
      match getenv (str "SSH_AUTH_SOCK") (os_env m) with
      | Some v => if usable m v then Some v else None
      | None => None
      end in
    match fromEnv with
    | Some v => Some v
    | None =>
        find (fun socketPath =>
                negb (includes (chr "*") socketPath)
                && os_existsSync m socketPath)
             (possiblePaths m)
    end.

(** ** [getPythonAndGitcdPaths] *)

(** [GetSubstitution] for a string pattern, which has no capture
    groups: in the replacement text [$$] is a dollar sign, [$&] the
    matched text, [$`] the text before the match and [$'] the text
    after it; every other character stands for itself. *)
Fixpoint getSubstitution (matched before after replacement : jsstring)
  : jsstring :=
  match replacement with
  | [] => []
  | c :: t =>
      if (c =? 36)%N then
        match t with
        | d :: t' =>
            if (d =? 36)%N then
              36%N :: getSubstitution matched before after t'
            else if (d =? 38)%N then
              matched ++ getSubstitution matched before after t'
            else if (d =? 96)%N then
              before ++ getSubstitution matched before after t'
            else if (d =? 39)%N then
              after ++ getSubstitution matched before after t'
            else c :: getSubstitution matched before after t
        | [] => [c]
        end
      else c :: getSubstitution matched before after t
  end.

(** The text before and after the first occurrence of a character. *)
Fixpoint findChar (c : char) (s : jsstring) : option (jsstring * jsstring) :=
  match s with
  | [] => None
  | x :: t =>
      if (x =? c)%N then Some ([], t)
      else match findChar c t with
           | Some (b, a) => Some (x :: b, a)
           | None => None
           end
  end.

(** [s.replace(c, replacement)] for a one-character string [c]. *)
Definition replaceChar (c : char) (replacement s : jsstring) : jsstring :=
  match findChar c s with
  | Some (b, a) => b ++ getSubstitution [c] b a replacement ++ a
  | None => s
  end.

Definition startsWith (c : char) (s : jsstring) : bool :=
  match s with
  | x :: _ => (x =? c)%N
  | [] => false
  end.

(** [p.startsWith('~') ? p.replace('~', os.homedir()) : p] *)
Definition expandTilde (home p : jsstring) : jsstring :=
  if startsWith (chr "~") p then replaceChar (chr "~") home p else p.

(** The bundled paths, as [ensurePythonEnvironment] and
    [getPythonAndGitcdPaths] both compute them. *)
Definition venvPath (m : Machine) : jsstring :=
  os_pathJoin m [os_extensionPath m; str "python-env"].

Definition bundledPython (m : Machine) : jsstring :=
  os_pathJoin m [venvPath m; str "bin"; str "python"].

Definition bundledGitcd (m : Machine) : jsstring :=
  os_pathJoin m [venvPath m; str "bin"; str "git-cd"].

Definition getPythonAndGitcdPaths (cfg : Settings) (m : Machine)
  : jsstring * jsstring :=
  if get (cfg_useBundledPython cfg) true then
    (bundledPython m, bundledGitcd m)
  else
    let pythonPath := get (cfg_pythonPath cfg) (str "/usr/bin/python3") in
    let gitcdPath := get (cfg_gitcdPath cfg) (str "~/.local/bin/git-cd") in
    (expandTilde (os_homedir m) pythonPath,
     expandTilde (os_homedir m) gitcdPath).

(** What [runGitCdCommand] reads, from the settings and the machine. *)
Definition hostOf (cfg : Settings) (m : Machine) : Host :=
  mkHost (get (cfg_showOutputOnExecution cfg) true)
         (os_workspaceFolder m)
         (os_extensionPath m)
         (fst (getPythonAndGitcdPaths cfg m))
         (snd (getPythonAndGitcdPaths cfg m))
         (os_existsSync m)
         (findSshAuthSocket cfg m)
         (os_env m)
         (os_homedir m)
         (os_username m).

(** ** [ensurePythonEnvironment] *)

(** How [execAsync] ends: with the two output texts, or with an error
    and its message. *)
Inductive ExecResult : Type :=
| ExecOk (out err : jsstring)
| ExecFailed (message : jsstring).

(** The effects of the activation: those of [Effect] and three more. *)
Inductive SetupEffect : Type :=
| Logged (e : Effect)
| Exec (command cwd : jsstring)
| ShowWarningMessage (message : jsstring) (items : list jsstring)
| ExecuteCommand (command argument : jsstring).

Definition quote : jsstring := [34%N].

Definition setupFailedWarning : jsstring :=
  str "Failed to setup bundled Git-CD. You can disable " ++ quote
  ++ str "useBundledPython" ++ quote
  ++ str " in settings and configure paths manually.".

(** [result] is how the setup script ends if it is run, [chosen]
    whether the user then picks "Open Settings" on the warning. *)
Definition ensurePythonEnvironment (cfg : Settings) (m : Machine)
           (result : ExecResult) (chosen : bool) : list SetupEffect :=
  if negb (get (cfg_useBundledPython cfg) true) then []
  else if os_existsSync m (bundledPython m) && os_existsSync m (bundledGitcd m)
  then [Logged (ChannelAppendLine
                  (10003%N :: str " Bundled Git-CD environment found"))]
  else
    let setupScript :=
      os_pathJoin m [os_extensionPath m; str "setup-python.sh"] in
    [ Logged (ChannelAppendLine
                (str "Setting up bundled Git-CD environment..."));
      Logged ChannelShow;
      Exec (str "bash " ++ quote ++ setupScript ++ quote)
           (os_extensionPath m) ]
    ++
    match result with
    | ExecOk out err =>
        (if truthy out then [Logged (ChannelAppendLine out)] else [])
        ++ (if truthy err then [Logged (ChannelAppendLine err)] else [])
        ++ [Logged (ShowInformationMessage
                      (str "Git-CD environment setup complete!"))]
    | ExecFailed message =>
        [ Logged (ChannelAppendLine (str "Setup failed: " ++ message));
          ShowWarningMessage setupFailedWarning [str "Open Settings"] ]
        ++ (if chosen
            then [ExecuteCommand (str "workbench.action.openSettings")
                                 (str "gitcd")]
            else [])
    end.

Definition isExec (e : SetupEffect) : bool :=
  match e with Exec _ _ => true | _ => false end.

Definition isNotification (e : SetupEffect) : bool :=
  match e with
  | Logged (ShowInformationMessage _) | ShowWarningMessage _ _ => true
  | _ => false
  end.

(** ** [runGitCdCommandWithInput] and the commands *)

(** [input] is what the input box resolves to, [None] for a dismissal.
    The result is the effect of the function itself and the call of
    [runGitCdCommand] it ends in, if any. *)
Definition runGitCdCommandWithInput (h : Host) (a : list jsstring)
           (prompt : jsstring) (input : option jsstring)
  : list Effect * option Invocation :=
  ([ShowInputBox prompt []
                 (str "Leave empty to use current branch/default")],
   match input with
   | None => None
   | Some i => Some (runGitCdCommand h (if truthy i then a ++ [i] else a))
   end).

(** The handlers of the array [commands] in [activate]. *)
Inductive Handler : Type :=
| Plain (a : list jsstring)
| WithInput (a : list jsstring) (prompt : jsstring).

Definition commands : list (jsstring * Handler) :=
  [ (str "gitcd.init", Plain [str "init"]);
    (str "gitcd.start",
     WithInput [str "start"] (str "Enter feature branch name"));
    (str "gitcd.refresh", Plain [str "refresh"]);
    (str "gitcd.test", Plain [str "test"]);
    (str "gitcd.review", Plain [str "review"]);
    (str "gitcd.status", Plain [str "status"]);
    (str "gitcd.finish", Plain [str "finish"]);
    (str "gitcd.compare",
     WithInput [str "compare"] (str "Enter branch or tag name to compare"));
    (str "gitcd.release", Plain [str "release"]);
    (str "gitcd.clean", Plain [str "clean"]);
    (str "gitcd.version", Plain [str "version"]);
    (str "gitcd.upgrade", Plain [str "upgrade"]) ].

(** What calling a handler does. *)
Definition handle (h : Host) (hd : Handler) (input : option jsstring)
  : list Effect * option Invocation :=
  match hd with
  | Plain a => ([], Some (runGitCdCommand h a))
  | WithInput a prompt => runGitCdCommandWithInput h a prompt input
  end.

(** The [Spawn] effects of an invocation. *)
Definition spawns (i : option Invocation) : list Effect :=
  match i with
  | Some (Running s) => filter isSpawn (trace s)
  | Some (Returned t) => filter isSpawn t
  | None => []
  end.

(** ** Vocabulary of the properties *)

Definition isAnswered (e : Event) : bool :=
  match e with Answered _ _ => true | _ => false end.

Definition isSettling (e : Event) : bool :=
  match e with ErrorEvent _ | CloseEvent _ => true | _ => false end.

Definition isDialog (e : Effect) : bool :=
  match e with
  | ShowQuickPick _ _ _ | ShowInputBox _ _ _ => true
  | _ => false
  end.

Definition isChannelAppend (e : Effect) : bool :=
  match e with ChannelAppend _ => true | _ => false end.

(** The chunks of both streams, in arrival order. *)
Fixpoint outputChunks (es : list Event) : list jsstring :=
  match es with
  | [] => []
  | StdoutData data _ :: es' => data :: outputChunks es'
  | StderrData data :: es' => data :: outputChunks es'
  | _ :: es' => outputChunks es'
  end.

Fixpoint stdoutChunks (es : list Event) : list jsstring :=
  match es with
  | [] => []
  | StdoutData data _ :: es' => data :: stdoutChunks es'
  | _ :: es' => stdoutChunks es'
  end.

Fixpoint stderrChunks (es : list Event) : list jsstring :=
  match es with
  | [] => []
  | StderrData data :: es' => data :: stderrChunks es'
  | _ :: es' => stderrChunks es'
  end.

(** The text holds the literal somewhere, letter for letter. *)
Definition containsText (literal : string) (text : jsstring) : Prop :=
  exists pre post, text = pre ++ str literal ++ post.

(** The characters a colour sequence is made of. *)
Definition isAnsiChar (c : char) : bool :=
  ((c =? 27) || (c =? 91) || isAnsiParam c || (c =? 109))%N.

Definition isPrefixOf (p s : jsstring) : Prop := exists rest, s = p ++ rest.

(** What the expansion is meant to give: the home directory in place of
    a leading tilde. *)
Definition homeFor (home p : jsstring) : jsstring :=
  match p with
  | c :: rest => if (c =? chr "~")%N then home ++ rest else p
  | [] => []
  end.

(** When the activation has to run the setup script. *)
Definition setupNeeded (cfg : Settings) (m : Machine) : bool :=
  get (cfg_useBundledPython cfg) true
  && negb (os_existsSync m (bundledPython m)
           && os_existsSync m (bundledGitcd m)).

(** A non-empty text whose last character is white space. *)
Definition endsInWhiteSpace (l : jsstring) : bool :=
  match l with
  | [] => false
  | _ :: _ => isWhiteSpace (last l 0%N)
  end.

(** [out] is [inp] without some white space at its end. *)
Definition trimmedFrom (out inp : jsstring) : Prop :=
  exists w, inp = out ++ w /\ forallb isWhiteSpace w = true.

Definition isStderrData (e : Event) : bool :=
  match e with StderrData _ => true | _ => false end.

(** The answer of a dismissed dialog. *)
Definition dismissal (p : Prompt) : Answer :=
  match p with
  | QuickPick _ => Picked None
  | InputBox _ _ => Entered None
  end.

Definition countAnswered (es : list Event) : nat :=
  List.length (filter isAnswered es).

(** ** More concrete inputs *)

Definition demoSettings : Settings :=
  mkSettings (Some false) (Some (str "~/venv/bin/python")) None None None.

(** A machine where only the two configured programs and the GNOME
    keyring socket exist; [path.join] is modelled for its use here by
    joining with slashes. *)
Definition demoMachine : Machine :=
  mkMachine (str "/ext") (Some (str "/work/repo"))
            (fun p => JS.eqb p (str "/home/dev/venv/bin/python")
                      || JS.eqb p (str "/home/dev/.local/bin/git-cd")
                      || JS.eqb p (str "/run/user/1000/keyring/ssh"))
            [(str "PATH", str "/usr/bin"); (str "USER", str "dev")]
            (str "/home/dev") (str "dev") 1000%Z
            (join (chr "/")).

(** * Properties *)

Unset Implicit Arguments.

(** ** Prompt detection reads the latest chunk *)

Lemma onStdoutData_prompt (s : Session) (data : jsstring) (writable : bool) :
  snd (onStdoutData s data writable) =
  match (if writable then classify (stripAnsiCodes data) else NoPrompt) with
  | NoPrompt => None
  | Binary =>
      Some (QuickPick
              (stripMarker
                 (extractQuestion (stripAnsiCodes (pendingOutput s ++ data))
                                  (stripAnsiCodes data))))
  | FreeText =>
      Some (InputBox
              (extractQuestion (stripAnsiCodes (pendingOutput s ++ data))
                               (stripAnsiCodes data))
              (extractDefault (stripAnsiCodes (pendingOutput s ++ data))))
  end.
Proof.
  unfold onStdoutData, classify.
  destruct (hasYesNoQuestion (stripAnsiCodes data));
    destruct (hasTextInputQuestion (stripAnsiCodes data));
    destruct writable; reflexivity.
Qed.

Lemma onStdoutData_kind (s : Session) (data : jsstring) (writable : bool) :
  kind (snd (onStdoutData s data writable)) =
  if writable then classify (stripAnsiCodes data) else NoPrompt.
Proof.
  rewrite onStdoutData_prompt.
  destruct writable; [destruct (classify (stripAnsiCodes data))|]; reflexivity.
Qed.

(** The part of the handler that runs for every chunk, whatever is
    detected. *)
Lemma onStdoutData_buffers (s : Session) (data : jsstring) (writable : bool) :
  let s' := fst (onStdoutData s data writable) in
  stdout s' = stdout s ++ data /\
  stderr s' = stderr s /\
  pendingOutput s' = pendingOutput s ++ data /\
  promise s' = promise s /\
  awaiting s' = awaiting s /\
  args s' = args s.
Proof.
  unfold onStdoutData.
  destruct (hasYesNoQuestion (stripAnsiCodes data));
    destruct (hasTextInputQuestion (stripAnsiCodes data));
    destruct writable; simpl; repeat split; reflexivity.
Qed.

Lemma onStdoutData_trace (s : Session) (data : jsstring) (writable : bool) :
  trace (fst (onStdoutData s data writable)) =
  trace s ++ ChannelAppend (sanitize data) ::
  match snd (onStdoutData s data writable) with
  | None => []
  | Some (QuickPick q) =>
      [ShowQuickPick [str "Yes"; str "No"] q (str "Git-CD Question")]
  | Some (InputBox q d) =>
      [ShowInputBox q d (if truthy d then str "Default: " ++ d
                         else str "Enter value")]
  end.
Proof.
  unfold onStdoutData, sanitize.
  destruct (hasYesNoQuestion (stripAnsiCodes data));
    destruct (hasTextInputQuestion (stripAnsiCodes data));
    destruct writable; simpl; rewrite <- ?app_assoc; reflexivity.
Qed.

(** C1, as the specification states it, fails: after the chunk ["[y"]
    (no prompt, so it stays pending) the chunk ["/n]"] arrives; the
    accumulated buffer ["[y/n]"] is a binary prompt, yet the handler
    detects nothing. *)
Lemma C1_counterexample :
  let s := mkSession [str "finish"] (str "[y") [] (str "[y")
                     [ChannelAppend (str "[y")] Pending [] in
  run fresh [StdoutData (str "[y") true] = Some s /\
  classify (stripAnsiCodes (pendingOutput s ++ str "/n]")) = Binary /\
  kind (snd (onStdoutData s (str "/n]") true)) = NoPrompt.
Proof. repeat split; reflexivity. Qed.

(** C1, amended: the detection rules are evaluated against the latest
    chunk, stripped of its colour codes, and against nothing else: what
    is detected at a chunk's arrival is the classification of that
    chunk alone (given a writable stdin) and is the same whatever the
    pending buffer holds.  The accumulated buffer is what the question
    text and the default value are extracted from. *)
Theorem C1_detection_reads_latest_chunk :
  forall (s : Session) (data : jsstring) (writable : bool),
    kind (snd (onStdoutData s data writable)) =
      (if writable then classify (stripAnsiCodes data) else NoPrompt)
    /\ (forall s2 : Session,
          kind (snd (onStdoutData s2 data writable)) =
          kind (snd (onStdoutData s data writable)))
    /\ snd (onStdoutData s data writable) =
       match kind (snd (onStdoutData s data writable)) with
       | NoPrompt => None
       | Binary =>
           Some (QuickPick
                   (stripMarker
                      (extractQuestion
                         (stripAnsiCodes (pendingOutput s ++ data))
                         (stripAnsiCodes data))))
       | FreeText =>
           Some (InputBox
                   (extractQuestion
                      (stripAnsiCodes (pendingOutput s ++ data))
                      (stripAnsiCodes data))
                   (extractDefault
                      (stripAnsiCodes (pendingOutput s ++ data))))
       end.
Proof.
  intros s data writable. split; [|split].
  - apply onStdoutData_kind.
  - intros s2. now rewrite !onStdoutData_kind.
  - rewrite onStdoutData_kind. apply onStdoutData_prompt.
Qed.

(** ** Answers and their write-back *)

Lemma step_answered (s : Session) (i : nat) (p : Prompt) (a : Answer) :
  nth_error (awaiting s) i = Some p ->
  step s (Answered i a) =
  resume p a (setAwaiting (remove_nth i (awaiting s)) s).
Proof. intros H. simpl. now rewrite H. Qed.

(** C3: a dismissed quick pick (the answer is [undefined]) first writes
    the literal ["no\n"] to the child's stdin and then kills the child;
    these are the two effects of the step, in this order, and the
    pending buffer is cleared. *)
Theorem C3_binary_dismissal_writes_no_then_kills :
  forall (s : Session) (i : nat) (q : jsstring),
    nth_error (awaiting s) i = Some (QuickPick q) ->
    exists s',
      step s (Answered i (Picked None)) = Some s' /\
      trace s' = trace s ++ [StdinWrite (str "no" ++ [LF]); Kill] /\
      pendingOutput s' = [] /\
      awaiting s' = remove_nth i (awaiting s).
Proof.
  intros s i q H.
  rewrite (step_answered s i _ (Picked None) H). simpl.
  eexists; split; [reflexivity|]. simpl. auto.
Qed.

Lemma C3_witness :
  nth_error (awaiting askedBinary) 0 = Some (QuickPick (str "Delete branch foo?"))
  /\ exists s',
      step askedBinary (Answered 0 (Picked None)) = Some s' /\
      trace s' = trace askedBinary ++ [StdinWrite (str "no" ++ [LF]); Kill] /\
      pendingOutput s' = [] /\
      awaiting s' = remove_nth 0 (awaiting askedBinary).
Proof.
  split; [reflexivity|].
  apply (C3_binary_dismissal_writes_no_then_kills
           askedBinary 0 (str "Delete branch foo?")).
  reflexivity.
Defined.

(** C4: on an input box, submitting the empty string writes exactly
    ["\n"] to stdin and kills nothing, while a dismissal ([undefined])
    writes nothing and kills the child. *)
Theorem C4_empty_submission_is_not_dismissal :
  forall (s : Session) (i : nat) (q d : jsstring),
    nth_error (awaiting s) i = Some (InputBox q d) ->
    (exists s',
        step s (Answered i (Entered (Some []))) = Some s' /\
        trace s' =
          trace s ++
          [StdinWrite [LF];
           ChannelAppendLine (str "[User entered: (empty - using default)]")])
    /\
    (exists s',
        step s (Answered i (Entered None)) = Some s' /\
        trace s' = trace s ++ [Kill]).
Proof.
  intros s i q d H. split.
  - rewrite (step_answered s i _ (Entered (Some [])) H). simpl.
    eexists; split; reflexivity.
  - rewrite (step_answered s i _ (Entered None) H). simpl.
    eexists; split; reflexivity.
Qed.

Lemma C4_witness :
  nth_error (awaiting askedText) 0 =
    Some (InputBox (str "Enter branch name?") (str "main"))
  /\ (exists s',
        step askedText (Answered 0 (Entered (Some []))) = Some s' /\
        trace s' =
          trace askedText ++
          [StdinWrite [LF];
           ChannelAppendLine (str "[User entered: (empty - using default)]")])
  /\ (exists s',
        step askedText (Answered 0 (Entered None)) = Some s' /\
        trace s' = trace askedText ++ [Kill]).
Proof.
  split; [reflexivity|].
  apply (C4_empty_submission_is_not_dismissal
           askedText 0 (str "Enter branch name?") (str "main")).
  reflexivity.
Defined.

(** ** A chunk that looks like a prompt while stdin is not writable *)

(** C10: with [child.stdin.writable] false the handler only records the
    chunk: it appends the sanitized chunk to the channel and the raw
    chunk to [stdout] and to the pending buffer, shows no dialog, writes
    nothing, kills nothing and keeps the pending buffer, whatever the
    chunk matches.  A dialog is shown only when stdin is writable. *)
Theorem C10_no_prompt_without_writable_stdin :
  forall (s : Session) (data : jsstring),
    let s' :=
      mkSession (args s) (stdout s ++ data) (stderr s)
                (pendingOutput s ++ data)
                (trace s ++ [ChannelAppend (sanitize data)])
                (promise s) (awaiting s) in
    onStdoutData s data false = (s', None)
    /\ step s (StdoutData data false) = Some s'
    /\ (forall writable : bool,
          snd (onStdoutData s data writable) = None \/ writable = true).
Proof.
  intros s data s'.
  assert (E : onStdoutData s data false = (s', None)).
  { unfold onStdoutData. now rewrite andb_false_r. }
  split; [exact E|]. split.
  - simpl. now rewrite E.
  - intros [|]; [now right|left]. now rewrite E.
Qed.

(** ** The example ["Continue? [y/n]: "] *)

(** C6, as the specification states it, fails: the question text shown
    for ["Continue? [y/n]: "] is not ["Continue"]. *)
Lemma C6_counterexample :
  snd (onStdoutData fresh (str "Continue? [y/n]: ") true)
  <> Some (QuickPick (str "Continue")).
Proof. vm_compute. discriminate. Qed.

(** C6, amended: for the chunk ["Continue? [y/n]: "] arriving on an
    empty pending buffer the classification is binary and the question
    text shown is exactly ["Continue?"]: the marker goes together with
    the white space before it and the colon after it, the question mark
    stays. *)
Theorem C6_continue_question_text :
  forall s : Session,
    let data := str "Continue? [y/n]: " in
    let r := onStdoutData (setPending [] s) data true in
    classify (stripAnsiCodes data) = Binary
    /\ snd r = Some (QuickPick (str "Continue?"))
    /\ trace (fst r) =
       trace s ++
       [ChannelAppend (str "Continue? [y/n]:");
        ShowQuickPick [str "Yes"; str "No"] (str "Continue?")
                      (str "Git-CD Question")].
Proof.
  intros s data r.
  assert (P : snd r = Some (QuickPick (str "Continue?"))).
  { unfold r. rewrite onStdoutData_prompt. reflexivity. }
  split; [reflexivity|]. split; [exact P|].
  unfold r in *. rewrite onStdoutData_trace, P. reflexivity.
Qed.

(** ** The pending buffer *)

Lemma resume_effects (p : Prompt) (a : Answer) (s s' : Session) :
  resume p a s = Some s' ->
  exists es,
    trace s' = trace s ++ es /\ handledBy es = true /\ pendingOutput s' = [].
Proof.
  destruct p as [q|q d]; destruct a as [[item|]|[answer|]];
    simpl; intros H; inversion H; subst; clear H; simpl;
    eexists; (split; [reflexivity|split; reflexivity]).
Qed.

Lemma step_pending_buffer (s : Session) (e : Event) (s' : Session) :
  step s e = Some s' ->
  exists es,
    trace s' = trace s ++ es /\
    match e with
    | Answered i a =>
        (exists p, nth_error (awaiting s) i = Some p /\
                   kind (Some p) <> NoPrompt)
        /\ handledBy es = true
        /\ pendingOutput s' = []
    | StdoutData data writable =>
        handledBy es = false
        /\ pendingOutput s' = pendingOutput s ++ data
        /\ (awaiting s' = awaiting s
            \/ classify (stripAnsiCodes data) <> NoPrompt
               /\ exists p, awaiting s' = awaiting s ++ [p])
    | _ =>
        handledBy es = false /\ pendingOutput s' = pendingOutput s
    end.
Proof.
  intros H. destruct e as [data w|data|m|code|i a]; simpl in H.
  - pose proof (onStdoutData_buffers s data w) as B.
    pose proof (onStdoutData_trace s data w) as T.
    pose proof (onStdoutData_kind s data w) as K.
    destruct (onStdoutData s data w) as [s1 [p|]]; simpl in *;
      inversion H; subst; clear H; simpl;
      destruct B as (_ & _ & Bp & _ & Ba & _);
      eexists; (split; [exact T|]).
    + split; [destruct p; reflexivity|]. split; [exact Bp|].
      right. split.
      * destruct w; [|destruct p; discriminate].
        rewrite <- K. destruct p; discriminate.
      * exists p. now rewrite Ba.
    + split; [reflexivity|]. split; [exact Bp|]. now left.
  - inversion H; subst; clear H. simpl.
    eexists; split; [reflexivity|]. split; reflexivity.
  - inversion H; subst; clear H. simpl.
    eexists; split; [reflexivity|]. split; reflexivity.
  - inversion H; subst; clear H.
    destruct code as [[| |]|]; simpl; rewrite <- app_assoc;
      eexists; (split; [reflexivity|]); split; reflexivity.
  - destruct (nth_error (awaiting s) i) as [p|] eqn:E; [|discriminate].
    destruct (resume_effects _ _ _ _ H) as (es & T & Hd & P).
    exists es. split; [exact T|]. split; [|split; assumption].
    exists p. split; [reflexivity|]. destruct p; discriminate.
Qed.

Lemma run_pending_buffer (es : list Event) :
  forall s s' : Session,
    run s es = Some s' ->
    pendingOutput s' = pendingAfter es (pendingOutput s).
Proof.
  induction es as [|e es IH]; intros s s' H; simpl in H.
  - now inversion H.
  - destruct (step s e) as [s1|] eqn:E; [|discriminate].
    rewrite (IH _ _ H). unfold pendingAfter. cbn [fold_left]. f_equal.
    destruct (step_pending_buffer _ _ _ E) as (t & _ & F).
    destruct e; intuition.
Qed.

(** C2: after every sequence of events the pending buffer holds the
    stdout chunks that arrived since the last handled prompt, and in
    the next turn of the event loop it is cleared exactly when a
    waiting prompt (binary or free-text, there is no other) is handled,
    that is when its answer is written to stdin or the child is killed;
    a stdout chunk, whatever its classification, leaves the buffer as
    its previous value with the chunk appended and neither writes nor
    kills, and a chunk classified as no prompt adds no waiting prompt;
    every other event leaves the buffer alone. *)
Theorem C2_pending_buffer_cleared_when_handled :
  forall (s0 : Session) (history : list Event) (s : Session)
         (e : Event) (s' : Session),
    run s0 history = Some s ->
    step s e = Some s' ->
    pendingOutput s = pendingAfter history (pendingOutput s0)
    /\ exists es,
        trace s' = trace s ++ es /\
        match e with
        | Answered i a =>
            (exists p, nth_error (awaiting s) i = Some p /\
                       kind (Some p) <> NoPrompt)
            /\ handledBy es = true
            /\ pendingOutput s' = []
        | StdoutData data writable =>
            handledBy es = false
            /\ pendingOutput s' = pendingOutput s ++ data
            /\ (awaiting s' = awaiting s
                \/ classify (stripAnsiCodes data) <> NoPrompt
                   /\ exists p, awaiting s' = awaiting s ++ [p])
        | _ =>
            handledBy es = false /\ pendingOutput s' = pendingOutput s
        end.
Proof.
  intros s0 history s e s' R H. split.
  - now apply run_pending_buffer.
  - now apply step_pending_buffer.
Qed.

Lemma C2_witness :
  run fresh [StdoutData (str "Delete branch foo? [y/n]: ") true]
    = Some askedBinary
  /\ exists s',
      step askedBinary (Answered 0 (Picked (Some Yes))) = Some s'
      /\ pendingOutput askedBinary = str "Delete branch foo? [y/n]: "
      /\ exists es,
          trace s' = trace askedBinary ++ es /\
          ((exists p, nth_error (awaiting askedBinary) 0 = Some p /\
                      kind (Some p) <> NoPrompt)
           /\ handledBy es = true
           /\ pendingOutput s' = []).
Proof.
  split; [reflexivity|].
  eexists. split; [reflexivity|].
  apply (C2_pending_buffer_cleared_when_handled
           fresh [StdoutData (str "Delete branch foo? [y/n]: ") true]
           askedBinary (Answered 0 (Picked (Some Yes))) _);
    reflexivity.
Defined.

(** ** Exit of the child *)

Lemma str_inj (a b : string) : str a = str b -> a = b.
Proof.
  unfold str. intros H.
  rewrite <- (string_of_list_ascii_of_string a),
          <- (string_of_list_ascii_of_string b).
  f_equal.
  revert H. generalize (list_ascii_of_string a) (list_ascii_of_string b).
  induction l as [|x l IH]; intros [|y l']; simpl; intros H;
    try discriminate; [reflexivity|].
  inversion H as [[Hx Hl]]. f_equal.
  - rewrite <- (ascii_N_embedding x), <- (ascii_N_embedding y).
    now rewrite Hx.
  - now apply IH.
Qed.

Lemma to_int_nonnil (z : Z) :
  Z.to_int z <> Decimal.Pos Decimal.Nil /\
  Z.to_int z <> Decimal.Neg Decimal.Nil.
Proof.
  destruct z as [|p|p]; simpl; split; try discriminate;
    intros H; inversion H as [E];
    exact (DecimalPos.Unsigned.to_uint_nonnil p E).
Qed.

Lemma ofZ_inj (c c' : Z) : ofZ c = ofZ c' -> c = c'.
Proof.
  unfold ofZ. intros H. apply str_inj in H.
  apply DecimalZ.to_int_inj.
  destruct (to_int_nonnil c) as [P1 N1].
  destruct (to_int_nonnil c') as [P2 N2].
  pose proof (NilZero.isi _ P1 N1) as A.
  pose proof (NilZero.isi _ P2 N2) as B.
  rewrite H in A. congruence.
Qed.

Lemma onClose_zero (s : Session) :
  promise s = Pending ->
  promise (onClose s (Some 0%Z)) = Fulfilled /\
  trace (onClose s (Some 0%Z)) =
    trace s ++
    [ChannelAppendLine [];
     ShowInformationMessage
       (str "Git-CD: " ++ arg0 s ++ str " completed successfully")].
Proof.
  intros H. unfold onClose. simpl. rewrite H, <- app_assoc. now split.
Qed.

Lemma onClose_nonzero (s : Session) (c : Z) :
  promise s = Pending -> c <> 0%Z ->
  promise (onClose s (Some c)) =
    Rejected (str "Process exited with code " ++ ofZ c) /\
  trace (onClose s (Some c)) =
    trace s ++
    [ChannelAppendLine [];
     ChannelAppendLine (str "Process exited with code " ++ ofZ c);
     ShowErrorMessage
       (str "Git-CD " ++ arg0 s ++ str " failed with code " ++ ofZ c) []].
Proof.
  intros H Hc. unfold onClose.
  destruct c as [|p|p]; [contradiction| |];
    simpl; rewrite H, <- app_assoc; now split.
Qed.

Lemma onClose_same_outcome (s1 s2 : Session) (code : option Z) :
  promise s1 = Pending -> promise s2 = Pending ->
  promise (onClose s1 code) = promise (onClose s2 code).
Proof.
  intros H1 H2. unfold onClose.
  destruct code as [[|p|p]|]; simpl; now rewrite H1, H2.
Qed.

(** C8: while the returned promise is still pending, the close handler
    decides the outcome from the exit code alone: code 0 fulfils the
    promise and shows the success notification; a nonzero code rejects
    it with a message that carries the code (two codes with the same
    outcome are the same code) and shows the failure notification with
    that code; the outcome of a close is the same in any two pending
    sessions.  A spawn-level error rejects the promise with the error's
    message and no code. *)
Theorem C8_outcome_decided_by_exit_code :
  forall s : Session,
    promise s = Pending ->
    (promise (onClose s (Some 0%Z)) = Fulfilled /\
     trace (onClose s (Some 0%Z)) =
       trace s ++
       [ChannelAppendLine [];
        ShowInformationMessage
          (str "Git-CD: " ++ arg0 s ++ str " completed successfully")])
    /\ (forall c : Z,
          c <> 0%Z ->
          promise (onClose s (Some c)) =
            Rejected (str "Process exited with code " ++ ofZ c) /\
          trace (onClose s (Some c)) =
            trace s ++
            [ChannelAppendLine [];
             ChannelAppendLine (str "Process exited with code " ++ ofZ c);
             ShowErrorMessage
               (str "Git-CD " ++ arg0 s ++ str " failed with code " ++ ofZ c)
               []])
    /\ (forall c c' : Z,
          promise (onClose s (Some c)) = promise (onClose s (Some c')) ->
          c = c')
    /\ (forall (s2 : Session) (code : option Z),
          promise s2 = Pending ->
          promise (onClose s2 code) = promise (onClose s code))
    /\ (forall m : jsstring,
          promise (onError s m) = Rejected m /\
          trace (onError s m) =
            trace s ++
            [ChannelAppendLine (str "Error: " ++ m);
             ShowErrorMessage (str "Git-CD error: " ++ m)
                              [str "Open Settings"]]).
Proof.
  intros s H. split; [now apply onClose_zero|].
  split; [intros c Hc; now apply onClose_nonzero|].
  split; [|split].
  - intros c c' E.
    destruct (Z.eq_dec c 0) as [->|Hc]; destruct (Z.eq_dec c' 0) as [->|Hc'];
      try reflexivity.
    + rewrite (proj1 (onClose_zero s H)),
              (proj1 (onClose_nonzero s c' H Hc')) in E. discriminate.
    + rewrite (proj1 (onClose_zero s H)),
              (proj1 (onClose_nonzero s c H Hc)) in E. discriminate.
    + rewrite (proj1 (onClose_nonzero s c H Hc)),
              (proj1 (onClose_nonzero s c' H Hc')) in E.
      inversion E as [E']. now apply ofZ_inj.
  - intros s2 code H2. now apply onClose_same_outcome.
  - intros m. unfold onError. simpl. rewrite H. now split.
Qed.

Lemma C8_witness :
  promise fresh = Pending
  /\ promise (onClose fresh (Some 0%Z)) = Fulfilled
  /\ promise (onClose fresh (Some 2%Z)) =
     Rejected (str "Process exited with code " ++ ofZ 2).
Proof.
  split; [reflexivity|].
  destruct (C8_outcome_decided_by_exit_code fresh eq_refl)
    as (H0 & Hc & _).
  split; [exact (proj1 H0)|].
  refine (proj1 (Hc 2%Z _)). discriminate.
Defined.

(** ** Preconditions of the spawn *)

Lemma checkingPaths_quiet (h : Host) (t0 : list Effect) :
  existsb isSpawn t0 = false -> existsb isErrorMessage t0 = false ->
  existsb isSpawn (t0 ++ checkingPaths h) = false /\
  existsb isErrorMessage (t0 ++ checkingPaths h) = false.
Proof.
  intros A B. rewrite !existsb_app, A, B. split; reflexivity.
Qed.

Lemma snoc_fifth (t : list Effect) (a b c d e : Effect) :
  t ++ [a; b; c; d; e] = (t ++ [a; b; c; d]) ++ [e].
Proof. now rewrite <- app_assoc. Qed.

(** C9: the three preconditions are checked, in the order workspace,
    interpreter, executable, before the spawn.  The first one that fails
    makes [runGitCdCommand] return after one error notification, its
    own, with no spawn and no session; the notifications of the three
    preconditions are pairwise different, whatever the paths.  Only when
    none fails is the child spawned, as the last effect before the
    handlers run. *)
Theorem C9_preconditions_checked_before_spawn :
  forall (h : Host) (a : list jsstring),
    match firstFailing h with
    | Some p =>
        exists t,
          runGitCdCommand h a = Returned (t ++ [failureReport h p]) /\
          existsb isSpawn (t ++ [failureReport h p]) = false /\
          existsb isErrorMessage t = false
    | None =>
        exists s t c argv cwd env,
          runGitCdCommand h a = Running s /\
          trace s = t ++ [Spawn c argv cwd env] /\
          existsb isSpawn t = false /\
          existsb isErrorMessage t = false
    end
    /\ (forall h1 h2 : Host,
          failureReport h1 WorkspaceKnown <> failureReport h2 InterpreterExists
          /\ failureReport h1 WorkspaceKnown
             <> failureReport h2 ExecutableExists
          /\ failureReport h1 InterpreterExists
             <> failureReport h2 ExecutableExists).
Proof.
  intros h a. split.
  - unfold firstFailing, runGitCdCommand. simpl.
    destruct (workspaceFolder h) as [ws|]; simpl.
    + assert (Q : existsb isSpawn
                    ((if showOutputOnExecution h then [ChannelShow] else [])
                     ++ checkingPaths h) = false /\
                  existsb isErrorMessage
                    ((if showOutputOnExecution h then [ChannelShow] else [])
                     ++ checkingPaths h) = false).
      { apply checkingPaths_quiet;
          destruct (showOutputOnExecution h); reflexivity. }
      destruct Q as [Q1 Q2].
      destruct (existsSync h (pythonPath h)); simpl.
      * destruct (existsSync h (gitcdPath h)); simpl.
        -- eexists _, _, _, _, _, _. split; [reflexivity|].
           split; [apply snoc_fifth|].
           rewrite !(existsb_app _ (_ ++ _)), Q1, Q2. split; reflexivity.
        -- eexists. split; [reflexivity|].
           rewrite existsb_app, Q1. split; [reflexivity|exact Q2].
      * eexists. split; [reflexivity|].
        rewrite existsb_app, Q1. split; [reflexivity|exact Q2].
    + exists []. repeat split.
  - intros h1 h2. repeat split; simpl; unfold pythonNotFound, gitcdNotFound;
      intros E; inversion E.
Qed.

(** The end-to-end example of the specification: no [git-cd] at the
    configured path. *)
Example C9_executable_missing :
  firstFailing hostWithoutGitcd = Some ExecutableExists /\
  exists t,
    runGitCdCommand hostWithoutGitcd [str "status"] =
      Returned (t ++ [ShowErrorMessage
                        (str "Git-CD not found at: /ext/python-env/bin/git-cd. Please check settings or reinstall extension.")
                        [str "Open Settings"]]) /\
    existsb isSpawn t = false.
Proof.
  split; [reflexivity|]. eexists. split; reflexivity.
Qed.

(** ** Binary before free-text *)

Section MatcherFacts.
Variable R : Type.

(** A case-insensitive literal run consumes exactly a text equal to
    it up to ASCII case. *)
Lemma rmatch_lits_i (m : string) :
  forall (mid post : jsstring) (cap : option jsstring)
         (k : jsstring -> option jsstring -> option R),
    map upperAscii mid = map upperAscii (str m) ->
    rmatch (lits true m) (mid ++ post) cap k = k post cap.
Proof.
  induction m as [|a m IH]; intros mid post cap k H.
  - destruct mid; [reflexivity|discriminate].
  - destruct mid as [|c mid]; [discriminate|].
    change (str (String a m)) with (chr a :: str m) in H.
    simpl in H. inversion H as [[Hc Hm]].
    simpl. unfold lit_i. rewrite Hc, N.eqb_refl.
    now apply IH.
Qed.
End MatcherFacts.

Lemma exec_here (r : regex) (s : jsstring) m :
  match_here r s = Some m -> exec r s = Some m.
Proof. intros H. destruct s; simpl; now rewrite H. Qed.

(** The search tries every start position: a match at some suffix
    makes [test] succeed. *)
Lemma test_suffix (r : regex) (pre s : jsstring) m :
  match_here r s = Some m -> test r (pre ++ s) = true.
Proof.
  intros H. unfold test. induction pre as [|c pre IH]; simpl app.
  - now rewrite (exec_here _ _ _ H).
  - simpl. destruct (match_here r (c :: pre ++ s)); [reflexivity|exact IH].
Qed.

Lemma test_lits_i (m : string) (text : jsstring) :
  containsIgnoringCase m text -> test (lits true m) text = true.
Proof.
  intros (pre & mid & post & -> & H).
  apply test_suffix with (m := (post, None)).
  unfold match_here. now rewrite rmatch_lits_i.
Qed.

Lemma hasYesNoQuestion_spec (text : jsstring) :
  matchesBinaryPattern text -> hasYesNoQuestion text = true.
Proof.
  unfold hasYesNoQuestion, yesNoPatterns. cbn [existsb].
  intros [H|H]; rewrite (test_lits_i _ _ H).
  - reflexivity.
  - now rewrite orb_true_r.
Qed.

(** C5: a chunk whose text (stripped of colour codes) holds [[y/n]] or
    [(yes/no)] in any letter-casing is classified as binary, whether or
    not a free-text pattern matches it too; with a writable stdin the
    handler then shows the quick pick, never the input box. *)
Theorem C5_binary_takes_precedence :
  forall (s : Session) (data : jsstring),
    matchesBinaryPattern (stripAnsiCodes data) ->
    classify (stripAnsiCodes data) = Binary /\
    exists q,
      snd (onStdoutData s data true) = Some (QuickPick q) /\
      trace (fst (onStdoutData s data true)) =
        trace s ++
        [ChannelAppend (sanitize data);
         ShowQuickPick [str "Yes"; str "No"] q (str "Git-CD Question")].
Proof.
  intros s data H.
  assert (C : classify (stripAnsiCodes data) = Binary).
  { unfold classify. now rewrite (hasYesNoQuestion_spec _ H). }
  split; [exact C|].
  pose proof (onStdoutData_prompt s data true) as P.
  rewrite C in P. eexists. split; [exact P|].
  now rewrite onStdoutData_trace, P.
Qed.

Lemma C5_witness :
  matchesBinaryPattern (stripAnsiCodes (str "Continue? [Y/N]?"))
  /\ hasTextInputQuestion (stripAnsiCodes (str "Continue? [Y/N]?")) = true
  /\ classify (stripAnsiCodes (str "Continue? [Y/N]?")) = Binary.
Proof.
  assert (M : matchesBinaryPattern (stripAnsiCodes (str "Continue? [Y/N]?"))).
  { left. exists (str "Continue? "), (str "[Y/N]"), (str "?").
    split; reflexivity. }
  split; [exact M|]. split; [reflexivity|].
  exact (proj1 (C5_binary_takes_precedence fresh (str "Continue? [Y/N]?") M)).
Defined.

(** ** The sanitizer *)

(** *** The colour-code pattern at one position *)

Section GreedyRun.
Variable R : Type.
Variable k : jsstring -> option R.
Hypothesis k_rejects_params :
  forall c t, isAnsiParam c = true -> k (c :: t) = None.

(** The greedy run of parameter characters cannot give a character
    back: what follows must be [m], which is not one of them. *)
Lemma star_params (t : jsstring) :
  star isAnsiParam t k = k (skipParams t).
Proof.
  induction t as [|c t IH]; [reflexivity|].
  simpl. destruct (isAnsiParam c) eqn:P; [|reflexivity].
  rewrite IH. destruct (k (skipParams t)); [reflexivity|].
  now apply k_rejects_params.
Qed.
End GreedyRun.

Lemma match_here_ansi (s : jsstring) :
  match_here ansiPattern s =
  option_map (fun r => (r, @None jsstring)) (ansiRest s).
Proof.
  unfold match_here, ansiPattern, seq. simpl fold_right.
  destruct s as [|c1 [|c2 t]]; simpl.
  - reflexivity.
  - unfold lit, chr; simpl N_of_ascii. destruct (c1 =? 27)%N; reflexivity.
  - unfold lit at 1, chr; simpl N_of_ascii.
    destruct (c1 =? 27)%N; [|reflexivity].
    unfold lit at 1, chr; simpl N_of_ascii.
    destruct (c2 =? 91)%N; [|reflexivity].
    simpl. rewrite star_params.
    + unfold afterParams. destruct (skipParams t) as [|c t']; [reflexivity|].
      unfold lit, chr; simpl N_of_ascii.
      destruct (c =? 109)%N; reflexivity.
    + intros c t' P. unfold lit, chr; simpl N_of_ascii.
      unfold isAnsiParam in P.
      destruct (N.eqb_spec c 109) as [->|]; [discriminate P|reflexivity].
Qed.

Lemma skipParams_length (t : jsstring) :
  List.length (skipParams t) <= List.length t.
Proof.
  induction t as [|c t IH]; simpl; [lia|].
  destruct (isAnsiParam c); simpl; lia.
Qed.

Lemma afterParams_shorter (t r : jsstring) :
  afterParams t = Some r -> List.length r < List.length t.
Proof.
  unfold afterParams. pose proof (skipParams_length t) as L.
  destruct (skipParams t) as [|c t']; [discriminate|].
  destruct (c =? 109)%N; [|discriminate].
  intros H; inversion H; subst. simpl in L. lia.
Qed.

Lemma ansiRest_shorter (s r : jsstring) :
  ansiRest s = Some r -> List.length r < List.length s.
Proof.
  destruct s as [|c1 [|c2 t]]; simpl; try discriminate.
  destruct ((c1 =? 27) && (c2 =? 91))%N; [|discriminate].
  intros H. apply afterParams_shorter in H. lia.
Qed.

Lemma ansiRest_starts_with_ESC (s r : jsstring) :
  ansiRest s = Some r -> exists t, s = ESC :: t.
Proof.
  destruct s as [|c1 [|c2 t]]; simpl; try discriminate.
  destruct (N.eqb_spec c1 27) as [->|]; [|discriminate].
  intros _. now eexists.
Qed.

(** *** Global replacement *)

Lemma replace_all_from_length (r : regex) (s : jsstring) :
  forall skip, List.length (replace_all_from r skip s) <= List.length s.
Proof.
  induction s as [|c t IH]; intros skip; [simpl; lia|].
  cbn [replace_all_from]. destruct skip as [|n].
  - destruct (match_here r (c :: t)) as [[s' cap]|].
    + destruct (List.length (c :: t) - List.length s') as [|n];
        cbn [List.length]; [pose proof (IH 0)|pose proof (IH n)]; lia.
    + cbn [List.length]. pose proof (IH 0). lia.
  - cbn [List.length]. pose proof (IH n). lia.
Qed.

Lemma replace_all_from_In (r : regex) (x : char) (s : jsstring) :
  forall skip, In x (replace_all_from r skip s) -> In x s.
Proof.
  induction s as [|c t IH]; intros skip; [simpl; tauto|].
  cbn [replace_all_from]. destruct skip as [|n].
  - destruct (match_here r (c :: t)) as [[s' cap]|].
    + destruct (List.length (c :: t) - List.length s') as [|n]; cbn [In].
      * intros [H|H]; [now left|right; eapply IH; eassumption].
      * intros H. right. eapply IH; eassumption.
    + cbn [In]. intros [H|H]; [now left|right; eapply IH; eassumption].
  - cbn [In]. intros H. right. eapply IH; eassumption.
Qed.

(** Where the pattern matches nowhere, nothing is replaced. *)
Lemma replace_all_no_match (r : regex) (s : jsstring) :
  test r s = false -> replace_all r s = s.
Proof.
  unfold test, replace_all. induction s as [|c t IH]; [reflexivity|].
  cbn [exec replace_all_from].
  destruct (match_here r (c :: t)); [discriminate|].
  intros H. f_equal. now apply IH.
Qed.

(** Where the colour-code pattern matches somewhere, stripping
    shortens the text. *)
Lemma stripAnsiCodes_shorter (s : jsstring) :
  test ansiPattern s = true ->
  List.length (stripAnsiCodes s) < List.length s.
Proof.
  unfold test, stripAnsiCodes, replace_all.
  induction s as [|c t IH].
  - cbn [exec]. rewrite match_here_ansi. simpl. discriminate.
  - cbn [exec replace_all_from].
    rewrite match_here_ansi.
    destruct (ansiRest (c :: t)) as [r|] eqn:E; cbn [option_map].
    + intros _. apply ansiRest_shorter in E.
      destruct (List.length (c :: t) - List.length r) as [|n] eqn:L;
        [lia|].
      pose proof (replace_all_from_length ansiPattern t n).
      cbn [List.length]. lia.
    + intros H. apply IH in H. cbn [List.length]. lia.
Qed.

Lemma no_ESC_no_ansi (s : jsstring) :
  ~ In ESC s -> test ansiPattern s = false.
Proof.
  unfold test. induction s as [|c t IH]; intros H.
  - cbn [exec]. now rewrite match_here_ansi.
  - cbn [exec]. rewrite match_here_ansi.
    destruct (ansiRest (c :: t)) as [r|] eqn:E; cbn [option_map].
    + apply ansiRest_starts_with_ESC in E as [t' E].
      inversion E; subst. exfalso. apply H. now left.
    + apply IH. intros F. apply H. now right.
Qed.

(** *** Trimming the lines *)

Lemma split_nonempty (sep : char) (s : jsstring) : split sep s <> [].
Proof.
  destruct s as [|c t]; simpl; [discriminate|].
  destruct (c =? sep)%N; [discriminate|].
  destruct (split sep t); discriminate.
Qed.

(** The first line of a text does not start with the separator. *)
Lemma split_head (sep x : char) (t l : jsstring) (ls : list jsstring) :
  split sep t = (x :: l) :: ls -> (x =? sep)%N = false.
Proof.
  destruct t as [|c t]; simpl; [discriminate|].
  destruct (c =? sep)%N eqn:E; [discriminate|].
  destruct (split sep t); intros H; inversion H; subst; exact E.
Qed.

Lemma trimEnd_head (l r : jsstring) (x : char) :
  trimEnd l = x :: r -> exists l', l = x :: l'.
Proof.
  destruct l as [|c l]; simpl; [discriminate|].
  destruct (trimEnd l).
  - destruct (isWhiteSpace c); [discriminate|].
    intros H; inversion H; subst. now eexists.
  - intros H; inversion H; subst. now eexists.
Qed.

Lemma join_cons (l : jsstring) (ls : list jsstring) :
  join LF (l :: ls) = l ++ afterFirstLine ls.
Proof.
  destruct ls; simpl; [now rewrite app_nil_r|reflexivity].
Qed.

Lemma endsLine_afterFirstLine (ls : list jsstring) :
  endsLine (afterFirstLine ls) = true.
Proof. destruct ls; reflexivity. Qed.

(** [trimLines], one character at a time: a line feed stays; a white
    space character goes when only white space separates it from the
    end of its line; every other character stays. *)
Lemma trimLines_cons (c : char) (t : jsstring) :
  trimLines (c :: t) =
  if (c =? LF)%N then LF :: trimLines t
  else if isWhiteSpace c && endsLine (trimLines t) then trimLines t
       else c :: trimLines t.
Proof.
  unfold trimLines. cbn [split].
  destruct (N.eqb_spec c LF) as [->|Hc].
  - destruct (split LF t) as [|l ls] eqn:E;
      [now apply split_nonempty in E|].
    reflexivity.
  - destruct (split LF t) as [|l ls] eqn:E;
      [now apply split_nonempty in E|].
    cbn [map]. rewrite !join_cons. cbn [trimEnd].
    destruct (trimEnd l) as [|x r] eqn:T.
    + cbn [app]. rewrite endsLine_afterFirstLine, andb_true_r.
      destruct (isWhiteSpace c); reflexivity.
    + destruct (trimEnd_head _ _ _ T) as [l' ->].
      apply split_head in E.
      cbn [app endsLine]. rewrite E, andb_false_r. reflexivity.
Qed.

Lemma trimLines_idempotent (u : jsstring) :
  trimLines (trimLines u) = trimLines u.
Proof.
  induction u as [|c t IH]; [reflexivity|].
  rewrite (trimLines_cons c t).
  destruct (N.eqb_spec c LF) as [->|Hc].
  - rewrite trimLines_cons. simpl. now rewrite IH.
  - destruct (isWhiteSpace c && endsLine (trimLines t)) eqn:D.
    + exact IH.
    + rewrite trimLines_cons, IH, D.
      destruct (N.eqb_spec c LF); [contradiction|reflexivity].
Qed.

Lemma trimLines_length (u : jsstring) :
  List.length (trimLines u) <= List.length u.
Proof.
  induction u as [|c t IH]; [simpl; lia|].
  rewrite trimLines_cons.
  destruct (c =? LF)%N; [cbn [List.length]; lia|].
  destruct (isWhiteSpace c && endsLine (trimLines t));
    cbn [List.length]; lia.
Qed.

Lemma trimLines_In (x : char) (u : jsstring) :
  In x (trimLines u) -> In x u.
Proof.
  induction u as [|c t IH]; [simpl; tauto|].
  rewrite trimLines_cons.
  destruct (N.eqb_spec c LF) as [->|Hc].
  - cbn [In]. intros [H|H]; [now left|right; now apply IH].
  - destruct (isWhiteSpace c && endsLine (trimLines t)); cbn [In].
    + intros H. right. now apply IH.
    + intros [H|H]; [now left|right; now apply IH].
Qed.

(** *** Idempotence *)

Lemma sanitize_no_ESC (T : jsstring) :
  ~ In ESC T -> test ansiPattern (sanitize T) = false.
Proof.
  intros H. apply no_ESC_no_ansi. intros F. apply H.
  unfold sanitize in F. apply trimLines_In in F.
  unfold stripAnsiCodes, replace_all in F.
  now apply replace_all_from_In in F.
Qed.

(** C7, as the specification states it, fails: sanitizing
    ESC [ ESC [ m m leaves ESC [ m, the two halves of the outer
    sequence joined, and sanitizing that leaves the empty text.  The
    text is itself a sanitized one. *)
Lemma C7_counterexample :
  sanitize nestedAnsi3 = nestedAnsi /\
  sanitize (sanitize nestedAnsi) <> sanitize nestedAnsi.
Proof. split; [reflexivity|]. vm_compute. discriminate. Qed.

(** C7, amended: sanitizing twice gives what sanitizing once gives
    exactly for the texts whose sanitized form holds no colour sequence
    any more; every text without an ESC character is one of them.  The
    line-trimming step alone is idempotent on every text. *)
Theorem C7_sanitize_idempotent_without_residual_codes :
  forall T : jsstring,
    (test ansiPattern (sanitize T) = false <->
     sanitize (sanitize T) = sanitize T)
    /\ (~ In ESC T -> sanitize (sanitize T) = sanitize T)
    /\ trimLines (trimLines T) = trimLines T.
Proof.
  intros T.
  assert (Suff : test ansiPattern (sanitize T) = false ->
                 sanitize (sanitize T) = sanitize T).
  { intros H. unfold sanitize at 1. unfold stripAnsiCodes.
    rewrite (replace_all_no_match _ _ H).
    unfold sanitize. apply trimLines_idempotent. }
  split; [split; [exact Suff|]|split].
  - intros E. destruct (test ansiPattern (sanitize T)) eqn:H; [|reflexivity].
    apply stripAnsiCodes_shorter in H.
    pose proof (trimLines_length (stripAnsiCodes (sanitize T))) as L.
    unfold sanitize at 1 in E. rewrite E in L. lia.
  - intros H. apply Suff. now apply sanitize_no_ESC.
  - apply trimLines_idempotent.
Qed.

Lemma C7_witness :
  test ansiPattern (sanitize colouredLine) = false
  /\ sanitize (sanitize colouredLine) = sanitize colouredLine.
Proof.
  split; [reflexivity|].
  apply (proj1 (proj1 (C7_sanitize_idempotent_without_residual_codes
                         colouredLine))).
  reflexivity.
Defined.

(** ** The end-to-end examples of the specification *)

Example status_succeeds :
  exists s,
    thenRun (runGitCdCommand demoHost [str "status"])
            [StdoutData (str "Up to date." ++ [LF]) true;
             CloseEvent (Some 0%Z)] = Some s
    /\ promise s = Fulfilled
    /\ In (ChannelAppend (str "Up to date." ++ [LF])) (trace s)
    /\ In (ShowInformationMessage
             (str "Git-CD: status completed successfully")) (trace s)
    /\ handledBy (trace s) = false.
Proof.
  eexists. split; [reflexivity|]. split; [reflexivity|].
  split; [|split; [|reflexivity]]; simpl; tauto.
Qed.

Example delete_branch_yes :
  exists s,
    thenRun (runGitCdCommand demoHost [str "finish"])
            [StdoutData (str "Delete branch foo? [y/n]: ") true;
             Answered 0 (Picked (Some Yes));
             CloseEvent (Some 0%Z)] = Some s
    /\ promise s = Fulfilled
    /\ filter isStdinWrite (trace s) = [StdinWrite (str "yes" ++ [LF])]
    /\ existsb isKill (trace s) = false.
Proof.
  eexists. split; [reflexivity|]. repeat split; reflexivity.
Qed.

Example branch_name_with_default :
  snd (onStdoutData fresh
         (str "Enter branch name?" ++ LF :: str "Default: main") true)
  = Some (InputBox (str "Enter branch name?") (str "main")).
Proof. reflexivity. Qed.

(** * Properties of the rest of the extension *)

(** ** Strings and the environment *)

Lemma eqb_eq (a b : jsstring) : JS.eqb a b = true <-> a = b.
Proof.
  revert b. induction a as [|x a IH]; intros [|y b]; simpl;
    try (split; [discriminate|discriminate]); [tauto|].
  rewrite andb_true_iff, N.eqb_eq, IH.
  split; [intros [-> ->]; reflexivity|intros H; inversion H; auto].
Qed.

Lemma eqb_neq (a b : jsstring) : a <> b -> JS.eqb a b = false.
Proof.
  intros H. destruct (JS.eqb a b) eqn:E; [|reflexivity].
  apply eqb_eq in E. contradiction.
Qed.

Lemma getenv_setenv (name k v : jsstring) (env : list (jsstring * jsstring)) :
  getenv name (setenv k v env) =
  if JS.eqb k name then Some v else getenv name env.
Proof. reflexivity. Qed.

(** The part of [childEnv] below the two optional assignments. *)
Lemma childEnv_layers (h : Host) (name : jsstring) :
  getenv name (childEnv h) =
  let fixed :=
    setenv (str "GIT_TERMINAL_PROMPT") (str "0")
      (setenv (str "GITCD_INTERACTIVE") (str "false")
         (setenv (str "USER")
                 (orDefault (getenv (str "USER") (processEnv h)) (username h))
            (setenv (str "HOME") (homedir h) (processEnv h)))) in
  let withSock :=
    match sshAuthSock h with
    | Some sock => if truthy sock then setenv (str "SSH_AUTH_SOCK") sock fixed
                   else fixed
    | None => fixed
    end in
  match getenv (str "GPG_TTY") (processEnv h) with
  | Some tty => if truthy tty then
                  if JS.eqb (str "GPG_TTY") name then Some tty
                  else getenv name withSock
                else getenv name withSock
  | None => getenv name withSock
  end.
Proof.
  unfold childEnv. cbv zeta.
  destruct (getenv (str "GPG_TTY") (processEnv h)) as [tty|]; [|reflexivity].
  destruct (truthy tty); reflexivity.
Qed.

(** X1: whatever [process.env] holds and whatever socket was found,
    the child's environment has [HOME] set to the home directory,
    [GITCD_INTERACTIVE] to ["false"], [GIT_TERMINAL_PROMPT] to ["0"],
    and [USER] to the caller's [USER] when that is set and not empty,
    else to the user name of the operating system. *)
Theorem X1_child_env_fixed_variables :
  forall h : Host,
    getenv (str "HOME") (childEnv h) = Some (homedir h)
    /\ getenv (str "GITCD_INTERACTIVE") (childEnv h) = Some (str "false")
    /\ getenv (str "GIT_TERMINAL_PROMPT") (childEnv h) = Some (str "0")
    /\ getenv (str "USER") (childEnv h) =
       Some (match getenv (str "USER") (processEnv h) with
             | Some (c :: u) => c :: u
             | _ => username h
             end).
Proof.
  intros h. rewrite !childEnv_layers. cbv zeta.
  assert (U : orDefault (getenv (str "USER") (processEnv h)) (username h) =
              match getenv (str "USER") (processEnv h) with
              | Some (c :: u) => c :: u
              | _ => username h
              end).
  { destruct (getenv (str "USER") (processEnv h)) as [[|c u]|]; reflexivity. }
  rewrite <- U.
  destruct (getenv (str "GPG_TTY") (processEnv h)) as [tty|];
    [destruct (truthy tty)|];
    (destruct (sshAuthSock h) as [sock|]; [destruct (truthy sock)|]);
    repeat split; reflexivity.
Qed.

(** X2: every variable of [process.env] other than [HOME], [USER],
    [GITCD_INTERACTIVE], [GIT_TERMINAL_PROMPT] and [SSH_AUTH_SOCK]
    reaches the child with the value it has for the caller; [GPG_TTY]
    is one of them. *)
Theorem X2_child_env_inherits_the_rest :
  forall (h : Host) (name : jsstring),
    name <> str "HOME" -> name <> str "USER" ->
    name <> str "GITCD_INTERACTIVE" -> name <> str "GIT_TERMINAL_PROMPT" ->
    name <> str "SSH_AUTH_SOCK" ->
    getenv name (childEnv h) = getenv name (processEnv h).
Proof.
  intros h name H1 H2 H3 H4 H5.
  assert (F : forall k v env, k <> name ->
                getenv name (setenv k v env) = getenv name env).
  { intros k v env Hk. rewrite getenv_setenv, (eqb_neq _ _ Hk). reflexivity. }
  assert (Fixed :
            getenv name
              (setenv (str "GIT_TERMINAL_PROMPT") (str "0")
                 (setenv (str "GITCD_INTERACTIVE") (str "false")
                    (setenv (str "USER")
                       (orDefault (getenv (str "USER") (processEnv h))
                                  (username h))
                       (setenv (str "HOME") (homedir h) (processEnv h)))))
            = getenv name (processEnv h)).
  { rewrite !F; [reflexivity| | | |]; congruence. }
  assert (Sock :
            getenv name
              match sshAuthSock h with
              | Some sock =>
                  if truthy sock
                  then setenv (str "SSH_AUTH_SOCK") sock
                         (setenv (str "GIT_TERMINAL_PROMPT") (str "0")
                            (setenv (str "GITCD_INTERACTIVE") (str "false")
                               (setenv (str "USER")
                                  (orDefault
                                     (getenv (str "USER") (processEnv h))
                                     (username h))
                                  (setenv (str "HOME") (homedir h)
                                          (processEnv h)))))
                  else
                    setenv (str "GIT_TERMINAL_PROMPT") (str "0")
                      (setenv (str "GITCD_INTERACTIVE") (str "false")
                         (setenv (str "USER")
                            (orDefault (getenv (str "USER") (processEnv h))
                                       (username h))
                            (setenv (str "HOME") (homedir h) (processEnv h))))
              | None =>
                  setenv (str "GIT_TERMINAL_PROMPT") (str "0")
                    (setenv (str "GITCD_INTERACTIVE") (str "false")
                       (setenv (str "USER")
                          (orDefault (getenv (str "USER") (processEnv h))
                                     (username h))
                          (setenv (str "HOME") (homedir h) (processEnv h))))
              end
            = getenv name (processEnv h)).
  { destruct (sshAuthSock h) as [sock|]; [destruct (truthy sock)|];
      try exact Fixed.
    rewrite F; [exact Fixed|congruence]. }
  rewrite childEnv_layers. cbv zeta.
  destruct (getenv (str "GPG_TTY") (processEnv h)) as [tty|] eqn:G;
    [|exact Sock].
  destruct (truthy tty); [|exact Sock].
  destruct (JS.eqb (str "GPG_TTY") name) eqn:E; [|exact Sock].
  apply eqb_eq in E. subst name. now rewrite G.
Qed.

Lemma X2_witness :
  getenv (str "PATH") (childEnv (hostOf demoSettings demoMachine)) =
  Some (str "/usr/bin").
Proof.
  rewrite (X2_child_env_inherits_the_rest
             (hostOf demoSettings demoMachine) (str "PATH"));
    [reflexivity| | | | |]; discriminate.
Defined.

(** ** [findSshAuthSocket] *)

Lemma possiblePaths_truthy (m : Machine) (p : jsstring) :
  In p (possiblePaths m) -> truthy p = true.
Proof.
  unfold possiblePaths. simpl.
  intros [H|[H|[H|[H|[H|[]]]]]]; subst p; try reflexivity.
  destruct (os_homedir m); reflexivity.
Qed.

Lemma findSshAuthSocket_sound :
  forall (cfg : Settings) (m : Machine) (p : jsstring),
    findSshAuthSocket cfg m = Some p ->
    truthy p = true
    /\ os_existsSync m p = true
    /\ (cfg_sshAuthSock cfg = Some p
        \/ getenv (str "SSH_AUTH_SOCK") (os_env m) = Some p
        \/ In p (possiblePaths m) /\ includes (chr "*") p = false).
Proof.
  intros cfg m p. unfold findSshAuthSocket.
  set (f := fun socketPath =>
              negb (includes (chr "*") socketPath)
              && os_existsSync m socketPath).
  assert (Ffind : find f (possiblePaths m) = Some p ->
                  truthy p = true /\ os_existsSync m p = true /\
                  In p (possiblePaths m) /\ includes (chr "*") p = false).
  { intros H. apply find_some in H as [I P]. unfold f in P.
    apply andb_true_iff in P as [P1 P2]. apply negb_true_iff in P1.
    split; [now apply (possiblePaths_truthy m)|]. auto. }
  destruct (usable m (get (cfg_sshAuthSock cfg) [])) eqn:U.
  - intros H; inversion H; subst p. unfold usable in U.
    apply andb_true_iff in U as [T E].
    split; [exact T|]. split; [exact E|]. left.
    destruct (cfg_sshAuthSock cfg); [reflexivity|discriminate T].
  - destruct (getenv (str "SSH_AUTH_SOCK") (os_env m)) as [v|].
    + destruct (usable m v) eqn:V.
      * intros H; inversion H; subst p. unfold usable in V.
        apply andb_true_iff in V as [T E]. auto.
      * intros H. destruct (Ffind H) as (A & B & C). auto.
    + intros H. destruct (Ffind H) as (A & B & C). auto.
Qed.

(** X3: a socket that [findSshAuthSocket] returns is a non-empty path
    of an existing file, and it is the configured socket, the caller's
    [SSH_AUTH_SOCK], or one of the fixed locations that holds no
    ['*']: the glob entry of the list is never returned as a found
    location. *)
Theorem X3_found_socket_exists :
  forall (cfg : Settings) (m : Machine) (p : jsstring),
    findSshAuthSocket cfg m = Some p ->
    truthy p = true
    /\ os_existsSync m p = true
    /\ (cfg_sshAuthSock cfg = Some p
        \/ getenv (str "SSH_AUTH_SOCK") (os_env m) = Some p
        \/ In p (possiblePaths m) /\ includes (chr "*") p = false).
Proof. exact findSshAuthSocket_sound. Qed.

Lemma X3_witness :
  findSshAuthSocket demoSettings demoMachine =
    Some (str "/run/user/1000/keyring/ssh")
  /\ os_existsSync demoMachine (str "/run/user/1000/keyring/ssh") = true.
Proof.
  split; [reflexivity|].
  exact (proj1 (proj2 (X3_found_socket_exists
                         demoSettings demoMachine
                         (str "/run/user/1000/keyring/ssh") eq_refl))).
Defined.

(** X4: [findSshAuthSocket] finds nothing exactly when the configured
    socket is empty or missing on disk, the caller's [SSH_AUTH_SOCK] is
    unset, empty or missing on disk, and none of the fixed locations
    without a ['*'] exists. *)
Theorem X4_no_socket_found :
  forall (cfg : Settings) (m : Machine),
    findSshAuthSocket cfg m = None <->
    (usable m (get (cfg_sshAuthSock cfg) []) = false
     /\ (forall v, getenv (str "SSH_AUTH_SOCK") (os_env m) = Some v ->
                   usable m v = false)
     /\ (forall p, In p (possiblePaths m) ->
                   includes (chr "*") p = false ->
                   os_existsSync m p = false)).
Proof.
  intros cfg m. unfold findSshAuthSocket.
  set (c := get (cfg_sshAuthSock cfg) []).
  set (f := fun socketPath =>
              negb (includes (chr "*") socketPath)
              && os_existsSync m socketPath).
  assert (Fnone : find f (possiblePaths m) = None <->
                  forall p, In p (possiblePaths m) ->
                            includes (chr "*") p = false ->
                            os_existsSync m p = false).
  { split.
    - intros H p I N. pose proof (find_none _ _ H p I) as Q.
      unfold f in Q. rewrite N in Q. exact Q.
    - intros H. destruct (find f (possiblePaths m)) as [p|] eqn:E;
        [|reflexivity].
      apply find_some in E as [I P]. unfold f in P.
      apply andb_true_iff in P as [P1 P2]. apply negb_true_iff in P1.
      rewrite (H p I P1) in P2. discriminate. }
  destruct (usable m c) eqn:U.
  - split; [discriminate|]. intros (H & _); discriminate.
  - destruct (getenv (str "SSH_AUTH_SOCK") (os_env m)) as [v|].
    + destruct (usable m v) eqn:V.
      * split; [discriminate|]. intros (_ & H & _).
        specialize (H v eq_refl). congruence.
      * rewrite Fnone. split.
        -- intros H. split; [reflexivity|]. split; [|exact H].
           intros v' E. inversion E; subst. exact V.
        -- intros (_ & _ & H). exact H.
    + rewrite Fnone. split.
      * intros H. split; [reflexivity|]. split; [discriminate|exact H].
      * intros (_ & _ & H). exact H.
Qed.

Lemma X4_witness :
  findSshAuthSocket demoSettings
    (mkMachine (str "/ext") None (fun p => JS.eqb p (str "/tmp/ssh-*/agent.*"))
               [] (str "/home/dev") (str "dev") 1000%Z (join (chr "/")))
  = None.
Proof.
  apply (proj2 (X4_no_socket_found demoSettings _)).
  split; [reflexivity|]. split; [discriminate|].
  intros p I N. simpl in I.
  destruct I as [H|[H|[H|[H|[H|[]]]]]]; subst p;
    try reflexivity. discriminate N.
Defined.

(** X5: the child's [SSH_AUTH_SOCK] is the socket [findSshAuthSocket]
    found; when none was found, and the log line says ["(not found)"],
    the child still inherits whatever [SSH_AUTH_SOCK] the caller has. *)
Theorem X5_child_ssh_auth_sock :
  forall (cfg : Settings) (m : Machine),
    getenv (str "SSH_AUTH_SOCK") (childEnv (hostOf cfg m)) =
    match findSshAuthSocket cfg m with
    | Some sock => Some sock
    | None => getenv (str "SSH_AUTH_SOCK") (os_env m)
    end.
Proof.
  intros cfg m. rewrite childEnv_layers. cbv zeta.
  change (processEnv (hostOf cfg m)) with (os_env m).
  change (sshAuthSock (hostOf cfg m)) with (findSshAuthSocket cfg m).
  assert (R : getenv (str "SSH_AUTH_SOCK")
                match findSshAuthSocket cfg m with
                | Some sock =>
                    if truthy sock
                    then setenv (str "SSH_AUTH_SOCK") sock
                           (setenv (str "GIT_TERMINAL_PROMPT") (str "0")
                              (setenv (str "GITCD_INTERACTIVE") (str "false")
                                 (setenv (str "USER")
                                    (orDefault
                                       (getenv (str "USER") (os_env m))
                                       (username (hostOf cfg m)))
                                    (setenv (str "HOME")
                                            (homedir (hostOf cfg m))
                                            (os_env m)))))
                    else
                      setenv (str "GIT_TERMINAL_PROMPT") (str "0")
                        (setenv (str "GITCD_INTERACTIVE") (str "false")
                           (setenv (str "USER")
                              (orDefault (getenv (str "USER") (os_env m))
                                         (username (hostOf cfg m)))
                              (setenv (str "HOME") (homedir (hostOf cfg m))
                                      (os_env m))))
                | None =>
                    setenv (str "GIT_TERMINAL_PROMPT") (str "0")
                      (setenv (str "GITCD_INTERACTIVE") (str "false")
                         (setenv (str "USER")
                            (orDefault (getenv (str "USER") (os_env m))
                                       (username (hostOf cfg m)))
                            (setenv (str "HOME") (homedir (hostOf cfg m))
                                    (os_env m))))
                end
              = match findSshAuthSocket cfg m with
                | Some sock => Some sock
                | None => getenv (str "SSH_AUTH_SOCK") (os_env m)
                end).
  { destruct (findSshAuthSocket cfg m) as [sock|] eqn:E; [|reflexivity].
    destruct (findSshAuthSocket_sound cfg m sock E) as (T & _).
    rewrite T. reflexivity. }
  destruct (getenv (str "GPG_TTY") (os_env m)) as [tty|]; [|exact R].
  destruct (truthy tty); exact R.
Qed.

(** ** [getPythonAndGitcdPaths] *)

Lemma getSubstitution_plain (matched before after replacement : jsstring) :
  includes (chr "$") replacement = false ->
  getSubstitution matched before after replacement = replacement.
Proof.
  induction replacement as [|c t IH]; [reflexivity|].
  unfold includes. cbn [existsb getSubstitution].
  change (chr "$") with 36%N.
  intros H. apply orb_false_iff in H as [H1 H2].
  rewrite H1. f_equal. now apply IH.
Qed.

Lemma expandTilde_tilde (home rest : jsstring) :
  expandTilde home (chr "~" :: rest) =
  getSubstitution [chr "~"] [] rest home ++ rest.
Proof. reflexivity. Qed.

Lemma expandTilde_homeFor (home p : jsstring) :
  includes (chr "$") home = false -> expandTilde home p = homeFor home p.
Proof.
  intros H. destruct p as [|c rest]; [reflexivity|].
  unfold homeFor. destruct (N.eqb_spec c (chr "~")) as [->|Hc].
  - rewrite expandTilde_tilde. now rewrite getSubstitution_plain.
  - unfold expandTilde, startsWith.
    destruct (N.eqb_spec c (chr "~")); [contradiction|reflexivity].
Qed.

(** X6: with the bundled environment switched off and a home directory
    without a dollar sign, the two paths are the configured ones (or
    the defaults [/usr/bin/python3] and [~/.local/bin/git-cd]) with a
    leading tilde replaced by the home directory and nothing else
    changed; with no [gitcdPath] configured the executable is
    [.local/bin/git-cd] under the home directory. *)
Theorem X6_configured_paths_expand_tilde :
  forall (cfg : Settings) (m : Machine),
    cfg_useBundledPython cfg = Some false ->
    includes (chr "$") (os_homedir m) = false ->
    getPythonAndGitcdPaths cfg m =
      (homeFor (os_homedir m)
               (get (cfg_pythonPath cfg) (str "/usr/bin/python3")),
       homeFor (os_homedir m)
               (get (cfg_gitcdPath cfg) (str "~/.local/bin/git-cd")))
    /\ (cfg_gitcdPath cfg = None ->
        snd (getPythonAndGitcdPaths cfg m) =
        os_homedir m ++ str "/.local/bin/git-cd").
Proof.
  intros cfg m B H. unfold getPythonAndGitcdPaths. rewrite B. cbn [get].
  rewrite !(expandTilde_homeFor _ _ H). split; [reflexivity|].
  intros G. rewrite G. reflexivity.
Qed.

Lemma X6_witness :
  getPythonAndGitcdPaths demoSettings demoMachine =
    (str "/home/dev/venv/bin/python", str "/home/dev/.local/bin/git-cd").
Proof.
  exact (proj1 (X6_configured_paths_expand_tilde
                  demoSettings demoMachine eq_refl eq_refl)).
Defined.

(** X7: the home directory is used as a replacement pattern, not as
    plain text: where it holds two dollar signs in a row (and no other)
    the expanded path has one of them only. *)
Theorem X7_tilde_expansion_reads_dollar_patterns :
  forall h1 h2 rest : jsstring,
    includes (chr "$") h1 = false ->
    includes (chr "$") h2 = false ->
    expandTilde (h1 ++ str "$$" ++ h2) (chr "~" :: rest) =
    h1 ++ str "$" ++ h2 ++ rest.
Proof.
  intros h1 h2 rest H1 H2. rewrite expandTilde_tilde.
  assert (E : getSubstitution [chr "~"] [] rest (h1 ++ str "$$" ++ h2) =
              h1 ++ str "$" ++ h2).
  { induction h1 as [|c t IH].
    - simpl. now rewrite getSubstitution_plain.
    - unfold includes in H1. cbn [existsb] in H1.
      apply orb_false_iff in H1 as [Hc Ht].
      change (chr "$") with 36%N in Hc.
      cbn [app getSubstitution]. rewrite Hc. f_equal. now apply IH. }
  rewrite E, <- !app_assoc. reflexivity.
Qed.

Lemma X7_witness :
  expandTilde (str "/home/a$$b") (str "~/bin/git-cd") =
  str "/home/a$b/bin/git-cd".
Proof.
  exact (X7_tilde_expansion_reads_dollar_patterns
           (str "/home/a") (str "b") (str "/bin/git-cd") eq_refl eq_refl).
Defined.

(** ** [ensurePythonEnvironment] *)

(** X8: [ensurePythonEnvironment] runs the setup script exactly when
    the bundled environment is switched on and its [python] or its
    [git-cd] is missing, and then once, as [bash "<extension
    path>/setup-python.sh"] in the extension directory, followed by
    exactly one notification (success or warning); otherwise it runs
    nothing and notifies nothing, and with the bundled environment
    switched off it has no effect at all. *)
Theorem X8_setup_runs_only_when_needed :
  forall (cfg : Settings) (m : Machine) (result : ExecResult) (chosen : bool),
    let effs := ensurePythonEnvironment cfg m result chosen in
    filter isExec effs =
      (if setupNeeded cfg m
       then [Exec (str "bash " ++ quote
                   ++ os_pathJoin m [os_extensionPath m;
                                     str "setup-python.sh"]
                   ++ quote)
                  (os_extensionPath m)]
       else [])
    /\ List.length (filter isNotification effs) =
       (if setupNeeded cfg m then 1 else 0)
    /\ (get (cfg_useBundledPython cfg) true = false -> effs = []).
Proof.
  intros cfg m result chosen effs. unfold effs, ensurePythonEnvironment,
    setupNeeded.
  destruct (get (cfg_useBundledPython cfg) true); cbn [negb andb].
  - destruct (os_existsSync m (bundledPython m)
              && os_existsSync m (bundledGitcd m)); cbn [negb].
    + repeat split. discriminate.
    + split; [|split; [|discriminate]].
      * destruct result as [out err|message];
          [destruct (truthy out); destruct (truthy err)|destruct chosen];
          reflexivity.
      * destruct result as [out err|message];
          [destruct (truthy out); destruct (truthy err)|destruct chosen];
          reflexivity.
  - repeat split.
Qed.



Lemma X8_witness :
  get (cfg_useBundledPython demoSettings) true = false
  /\ ensurePythonEnvironment demoSettings demoMachine
       (ExecFailed (str "exit 1")) true = [].
Proof.
  split; [reflexivity|].
  exact (proj2 (proj2 (X8_setup_runs_only_when_needed
                         demoSettings demoMachine
                         (ExecFailed (str "exit 1")) true)) eq_refl).
Defined.

(** ** The spawn, [runGitCdCommandWithInput] and the commands *)

Lemma filter_none {A : Type} (f : A -> bool) (l : list A) :
  existsb f l = false -> filter f l = [].
Proof.
  induction l as [|x l IH]; [reflexivity|]. simpl.
  destruct (f x); [discriminate|]. exact IH.
Qed.

Lemma runGitCdCommand_spawns (h : Host) (a : list jsstring) :
  spawns (Some (runGitCdCommand h a)) =
  match firstFailing h, workspaceFolder h with
  | None, Some fsPath =>
      [Spawn (pythonPath h) (gitcdPath h :: a) fsPath (childEnv h)]
  | _, _ => []
  end.
Proof.
  unfold firstFailing, runGitCdCommand, holds. cbn [find].
  destruct (workspaceFolder h) as [ws|]; cbn [negb]; [|reflexivity].
  assert (Q : filter isSpawn
                ((if showOutputOnExecution h then [ChannelShow] else [])
                 ++ checkingPaths h) = []).
  { apply filter_none.
    apply checkingPaths_quiet; destruct (showOutputOnExecution h); reflexivity. }
  destruct (existsSync h (pythonPath h)); cbn [negb].
  - destruct (existsSync h (gitcdPath h)); cbn [negb spawns trace].
    + rewrite filter_app, Q. reflexivity.
    + rewrite filter_app, Q. reflexivity.
  - cbn [spawns]. rewrite filter_app, Q. reflexivity.
Qed.

(** X10: [runGitCdCommand] starts at most one child, and none when a
    precondition fails; the child is the interpreter, its arguments are
    the [git-cd] path followed by the given arguments, one entry each
    and unchanged, its directory the workspace folder and its
    environment the one of [childEnv]. *)
Theorem X10_the_child_that_is_spawned :
  forall (h : Host) (a : list jsstring),
    spawns (Some (runGitCdCommand h a)) =
    match firstFailing h, workspaceFolder h with
    | None, Some fsPath =>
        [Spawn (pythonPath h) (gitcdPath h :: a) fsPath (childEnv h)]
    | _, _ => []
    end.
Proof. exact runGitCdCommand_spawns. Qed.

(** X11: [runGitCdCommandWithInput] runs nothing when the input box is
    dismissed; an empty input runs the command with its own arguments;
    any other input is appended as one further argument, exactly as
    typed, whatever it holds (blanks, dashes, quotes). *)
Theorem X11_input_becomes_one_argument :
  forall (h : Host) (a : list jsstring) (prompt fsPath : jsstring)
         (input : option jsstring),
    firstFailing h = None ->
    workspaceFolder h = Some fsPath ->
    fst (runGitCdCommandWithInput h a prompt input) =
      [ShowInputBox prompt []
                    (str "Leave empty to use current branch/default")]
    /\ spawns (snd (runGitCdCommandWithInput h a prompt input)) =
       match input with
       | None => []
       | Some [] =>
           [Spawn (pythonPath h) (gitcdPath h :: a) fsPath (childEnv h)]
       | Some (c :: i) =>
           [Spawn (pythonPath h) (gitcdPath h :: a ++ [c :: i]) fsPath
                  (childEnv h)]
       end.
Proof.
  intros h a prompt fsPath input F W. split; [reflexivity|].
  unfold runGitCdCommandWithInput. cbn [snd].
  destruct input as [[|c i]|]; [| |reflexivity];
    rewrite runGitCdCommand_spawns, F, W; reflexivity.
Qed.

Lemma X11_witness :
  spawns (snd (runGitCdCommandWithInput demoHost [str "start"]
                 (str "Enter feature branch name")
                 (Some (str "my feature --force")))) =
  [Spawn (pythonPath demoHost)
         [gitcdPath demoHost; str "start"; str "my feature --force"]
         (str "/work/repo") (childEnv demoHost)].
Proof.
  exact (proj2 (X11_input_becomes_one_argument
                  demoHost [str "start"] (str "Enter feature branch name")
                  (str "/work/repo") (Some (str "my feature --force"))
                  eq_refl eq_refl)).
Defined.

Lemma commands_shape (id : jsstring) (hd : Handler) :
  In (id, hd) commands ->
  exists sub,
    id = str "gitcd." ++ sub /\
    (hd = Plain [sub] \/ exists prompt, hd = WithInput [sub] prompt).
Proof.
  unfold commands. cbn [In].
  intros H.
  repeat (destruct H as [H|H];
          [inversion H; subst; clear H; eexists;
           (split; [reflexivity|]);
           first [left; reflexivity | right; eexists; reflexivity]|]).
  contradiction.
Qed.

(** X12: the twelve command ids that [activate] registers are pairwise
    different, each is ["gitcd."] followed by a subcommand, and its
    handler runs [git-cd] with that subcommand as the first argument:
    when no precondition fails, the child's arguments are the [git-cd]
    path, the subcommand and, for a handler that asks for input, the
    text that was typed (nothing when it was empty); only a dismissed
    input box spawns nothing. *)
Theorem X12_each_command_runs_its_subcommand :
  NoDup (map fst commands)
  /\ forall (id : jsstring) (hd : Handler),
      In (id, hd) commands ->
      exists sub,
        id = str "gitcd." ++ sub
        /\ forall (h : Host) (fsPath : jsstring),
            firstFailing h = None ->
            workspaceFolder h = Some fsPath ->
            (forall typed : jsstring,
                spawns (snd (handle h hd (Some typed))) =
                [Spawn (pythonPath h)
                       (gitcdPath h :: sub ::
                        match hd with
                        | Plain _ => []
                        | WithInput _ _ => if truthy typed then [typed] else []
                        end)
                       fsPath (childEnv h)])
            /\ spawns (snd (handle h hd None)) =
               match hd with
               | Plain _ =>
                   [Spawn (pythonPath h) [gitcdPath h; sub] fsPath
                          (childEnv h)]
               | WithInput _ _ => []
               end.
Proof.
  split.
  - unfold commands. cbn [map fst].
    repeat (constructor;
            [cbn [In]; intros H;
             repeat (destruct H as [H|H]; [discriminate H|]); exact H|]).
    constructor.
  - intros id hd I.
    destruct (commands_shape id hd I) as (sub & -> & [->|[prompt ->]]);
      exists sub; (split; [reflexivity|]); intros h fsPath F W.
    + cbn [handle snd]. rewrite runGitCdCommand_spawns, F, W.
      split; [intros typed|]; reflexivity.
    + cbn [handle runGitCdCommandWithInput snd]. split; [|reflexivity].
      intros typed. rewrite runGitCdCommand_spawns, F, W.
      destruct (truthy typed); reflexivity.
Qed.

Lemma X12_witness :
  exists sub,
    str "gitcd.compare" = str "gitcd." ++ sub
    /\ forall (h : Host) (fsPath : jsstring),
        firstFailing h = None ->
        workspaceFolder h = Some fsPath ->
        (forall typed : jsstring,
            spawns (snd (handle h
                           (WithInput [str "compare"]
                              (str "Enter branch or tag name to compare"))
                           (Some typed))) =
            [Spawn (pythonPath h)
                   (gitcdPath h :: sub :: if truthy typed then [typed] else [])
                   fsPath (childEnv h)])
        /\ spawns (snd (handle h
                          (WithInput [str "compare"]
                             (str "Enter branch or tag name to compare"))
                          None)) = [].
Proof.
  apply (proj2 X12_each_command_runs_its_subcommand
               (str "gitcd.compare")
               (WithInput [str "compare"]
                          (str "Enter branch or tag name to compare"))).
  unfold commands. cbn [In]. do 7 right. left. reflexivity.
Defined.

(** ** Invariants of the event loop *)

Lemma remove_nth_length {A : Type} (l : list A) :
  forall (i : nat) (x : A),
    nth_error l i = Some x -> S (List.length (remove_nth i l)) = List.length l.
Proof.
  induction l as [|y l IH]; intros [|i] x H; simpl in *;
    try discriminate; [reflexivity|].
  f_equal. eapply IH; eassumption.
Qed.

(** What one turn of the event loop changes, all in one. *)
Lemma step_frame (s : Session) (e : Event) (s' : Session) :
  step s e = Some s' ->
  args s' = args s
  /\ stdout s' = stdout s ++ List.concat (stdoutChunks [e])
  /\ stderr s' = stderr s ++ List.concat (stderrChunks [e])
  /\ (promise s <> Pending -> promise s' = promise s)
  /\ (isSettling e = false -> promise s' = promise s)
  /\ exists added,
      trace s' = trace s ++ added
      /\ filter isChannelAppend added =
         map (fun d => ChannelAppend (sanitize d)) (outputChunks [e])
      /\ handledBy added = isAnswered e
      /\ List.length (awaiting s') + countAnswered [e] =
         List.length (awaiting s) + List.length (filter isDialog added).
Proof.
  intros H. unfold countAnswered.
  destruct e as [data w|data|m|code|i a]; simpl in H.
  - pose proof (onStdoutData_buffers s data w) as B.
    pose proof (onStdoutData_trace s data w) as T.
    destruct (onStdoutData s data w) as [s1 [p|]]; simpl in B, T;
      inversion H; subst; clear H;
      destruct B as (Bo & Be & _ & Bq & Ba & Bg); simpl;
      rewrite ?app_nil_r;
      (repeat (split; [solve [auto]|]));
      eexists; (split; [exact T|]).
    + destruct p; simpl; rewrite Ba, length_app; simpl;
        (repeat split; try reflexivity; lia).
    + simpl. rewrite Ba. repeat split; try reflexivity; lia.
  - inversion H; subst; clear H. simpl. rewrite ?app_nil_r.
    repeat (split; [solve [auto]|]).
    eexists; split; [reflexivity|]. simpl. repeat split; try reflexivity; lia.
  - inversion H; subst; clear H. simpl. rewrite ?app_nil_r.
    split; [reflexivity|]. split; [reflexivity|]. split; [reflexivity|].
    split; [intros P; destruct (promise s); [contradiction| |]; reflexivity|].
    split; [discriminate|].
    eexists; split; [reflexivity|]. simpl. repeat split; try reflexivity; lia.
  - inversion H; subst; clear H.
    destruct code as [[|p|p]|]; simpl; rewrite ?app_nil_r, <- ?app_assoc;
      (split; [reflexivity|]); (split; [reflexivity|]);
      (split; [reflexivity|]);
      (split; [intros P; destruct (promise s);
               [contradiction| |]; reflexivity|]);
      (split; [discriminate|]);
      eexists; (split; [reflexivity|]); simpl;
      repeat split; try reflexivity; lia.
  - destruct (nth_error (awaiting s) i) as [p|] eqn:E; [|discriminate].
    pose proof (remove_nth_length (awaiting s) i p E) as L.
    destruct p as [q|q d]; destruct a as [[item|]|[answer|]];
      simpl in H; inversion H; subst; clear H; simpl;
      rewrite ?app_nil_r;
      (split; [reflexivity|]); (split; [reflexivity|]);
      (split; [reflexivity|]); (split; [reflexivity|]);
      (split; [reflexivity|]);
      eexists; (split; [reflexivity|]); simpl;
      repeat split; try reflexivity; lia.
Qed.

Lemma outputChunks_cons (e : Event) (es : list Event) :
  outputChunks (e :: es) = outputChunks [e] ++ outputChunks es.
Proof. destruct e; reflexivity. Qed.

Lemma stdoutChunks_cons (e : Event) (es : list Event) :
  stdoutChunks (e :: es) = stdoutChunks [e] ++ stdoutChunks es.
Proof. destruct e; reflexivity. Qed.

Lemma stderrChunks_cons (e : Event) (es : list Event) :
  stderrChunks (e :: es) = stderrChunks [e] ++ stderrChunks es.
Proof. destruct e; reflexivity. Qed.

Lemma handledBy_app (t1 t2 : list Effect) :
  handledBy (t1 ++ t2) = handledBy t1 || handledBy t2.
Proof. unfold handledBy. apply existsb_app. Qed.

(** The same along a run. *)
Lemma run_frame (es : list Event) :
  forall s s' : Session,
    run s es = Some s' ->
    args s' = args s
    /\ stdout s' = stdout s ++ List.concat (stdoutChunks es)
    /\ stderr s' = stderr s ++ List.concat (stderrChunks es)
    /\ (promise s <> Pending -> promise s' = promise s)
    /\ (existsb isSettling es = false -> promise s' = promise s)
    /\ exists added,
        trace s' = trace s ++ added
        /\ filter isChannelAppend added =
           map (fun d => ChannelAppend (sanitize d)) (outputChunks es)
        /\ handledBy added = existsb isAnswered es
        /\ List.length (awaiting s') + countAnswered es =
           List.length (awaiting s) + List.length (filter isDialog added).
Proof.
  induction es as [|e es IH]; intros s s' H; simpl in H.
  - inversion H; subst. simpl. rewrite !app_nil_r.
    repeat (split; [solve [auto]|]).
    exists []. rewrite app_nil_r. repeat split.
  - destruct (step s e) as [s1|] eqn:E; [|discriminate].
    destruct (step_frame _ _ _ E)
      as (A1 & O1 & R1 & P1 & Q1 & t1 & T1 & C1 & H1 & L1).
    destruct (IH _ _ H)
      as (A2 & O2 & R2 & P2 & Q2 & t2 & T2 & C2 & H2 & L2).
    split; [congruence|].
    split; [rewrite O2, O1, (stdoutChunks_cons e es), concat_app, app_assoc;
            reflexivity|].
    split; [rewrite R2, R1, (stderrChunks_cons e es), concat_app, app_assoc;
            reflexivity|].
    split; [intros P; rewrite P2; [now apply P1|];
            rewrite (P1 P); exact P|].
    split.
    { cbn [existsb]. intros F. apply orb_false_iff in F as [F1 F2].
      rewrite (Q2 F2). now apply Q1. }
    exists (t1 ++ t2).
    split; [rewrite T2, T1, app_assoc; reflexivity|].
    split; [rewrite filter_app, C1, C2, (outputChunks_cons e es), map_app;
            reflexivity|].
    split; [rewrite handledBy_app, H1, H2; reflexivity|].
    rewrite filter_app, length_app.
    unfold countAnswered in *. cbn [filter].
    simpl in L1. destruct (isAnswered e); simpl in *; lia.
Qed.

(** X13: along every run of the event loop the extension writes to the
    child's stdin or kills the child only when a dialog was answered:
    a run without an answer holds neither a write nor a kill, and a run
    with one holds at least one of them. *)
Theorem X13_no_write_or_kill_without_an_answer :
  forall (s : Session) (es : list Event) (s' : Session),
    run s es = Some s' ->
    exists added,
      trace s' = trace s ++ added
      /\ handledBy added = existsb isAnswered es.
Proof.
  intros s es s' H.
  destruct (run_frame es s s' H) as (_ & _ & _ & _ & _ & t & T & _ & Hd & _).
  now exists t.
Qed.

Lemma X13_witness :
  exists added,
    trace askedBinary = trace fresh ++ added
    /\ handledBy added = false.
Proof.
  exact (X13_no_write_or_kill_without_an_answer
           fresh [StdoutData (str "Delete branch foo? [y/n]: ") true]
           askedBinary eq_refl).
Defined.

(** X14: along every run the number of waiting dialogs is the number
    of dialogs shown less the number of answers taken: every answer
    resolves one dialog that was shown before and not answered yet. *)
Theorem X14_every_answer_resolves_a_shown_dialog :
  forall (s : Session) (es : list Event) (s' : Session),
    run s es = Some s' ->
    exists added,
      trace s' = trace s ++ added
      /\ List.length (awaiting s') + countAnswered es =
         List.length (awaiting s) + List.length (filter isDialog added).
Proof.
  intros s es s' H.
  destruct (run_frame es s s' H) as (_ & _ & _ & _ & _ & t & T & _ & _ & L).
  now exists t.
Qed.

Lemma X14_witness :
  exists added,
    trace askedBinary = trace fresh ++ added
    /\ List.length (awaiting askedBinary) + 0 =
       List.length (awaiting fresh) + List.length (filter isDialog added).
Proof.
  exact (X14_every_answer_resolves_a_shown_dialog
           fresh [StdoutData (str "Delete branch foo? [y/n]: ") true]
           askedBinary eq_refl).
Defined.

(** X15: along every run [stdout] and [stderr] grow by the raw chunks
    of their stream, in arrival order, and the output channel receives
    through [append] exactly the sanitized text of every chunk of
    either stream, one [append] per chunk and in arrival order, whether
    or not the chunk raised a dialog. *)
Theorem X15_every_chunk_is_displayed_in_order :
  forall (s : Session) (es : list Event) (s' : Session),
    run s es = Some s' ->
    stdout s' = stdout s ++ List.concat (stdoutChunks es)
    /\ stderr s' = stderr s ++ List.concat (stderrChunks es)
    /\ exists added,
        trace s' = trace s ++ added
        /\ filter isChannelAppend added =
           map (fun d => ChannelAppend (sanitize d)) (outputChunks es).
Proof.
  intros s es s' H.
  destruct (run_frame es s s' H) as (_ & O & R & _ & _ & t & T & C & _ & _).
  split; [exact O|]. split; [exact R|]. now exists t.
Qed.

Lemma X15_witness :
  stdout askedBinary = stdout fresh ++ str "Delete branch foo? [y/n]: ".
Proof.
  exact (proj1 (X15_every_chunk_is_displayed_in_order
                  fresh [StdoutData (str "Delete branch foo? [y/n]: ") true]
                  askedBinary eq_refl)).
Defined.

(** X16: the promise of an invocation is settled once: along every run
    a promise that is fulfilled or rejected keeps its outcome whatever
    follows (a close after an error does not change the rejection), a
    run without a close or error event leaves it as it is (an answer or
    a kill does not settle it), and the arguments never change. *)
Theorem X16_the_promise_settles_once :
  forall (s : Session) (es : list Event) (s' : Session),
    run s es = Some s' ->
    (promise s <> Pending -> promise s' = promise s)
    /\ (existsb isSettling es = false -> promise s' = promise s)
    /\ args s' = args s.
Proof.
  intros s es s' H.
  destruct (run_frame es s s' H) as (A & _ & _ & P & Q & _).
  auto.
Qed.

Lemma X16_witness :
  exists s',
    run fresh [ErrorEvent (str "spawn ENOENT"); CloseEvent (Some (-2)%Z)]
      = Some s'
    /\ promise s' = Rejected (str "spawn ENOENT").
Proof.
  eexists. split; [reflexivity|].
  assert (R : run (onError fresh (str "spawn ENOENT"))
                  [CloseEvent (Some (-2)%Z)]
              = Some (onClose (onError fresh (str "spawn ENOENT"))
                              (Some (-2)%Z))) by reflexivity.
  refine (proj1 (X16_the_promise_settles_once _ _ _ R) _).
  discriminate.
Defined.

Lemma resume_dismissal (p : Prompt) (s : Session) :
  resume p (dismissal p) s =
  Some (setPending []
          (emit (match p with
                 | QuickPick _ => [StdinWrite (str "no" ++ [LF]); Kill]
                 | InputBox _ _ => [Kill]
                 end) s)).
Proof. destruct p; reflexivity. Qed.

Lemma onClose_null (s : Session) :
  promise s = Pending ->
  promise (onClose s None) = Rejected (str "Process exited with code null")
  /\ trace (onClose s None) =
     trace s ++
     [ChannelAppendLine [];
      ChannelAppendLine (str "Process exited with code null");
      ShowErrorMessage
        (str "Git-CD " ++ arg0 s ++ str " failed with code null") []].
Proof.
  intros H. unfold onClose. cbn [setPromise emit promise trace].
  rewrite H, <- app_assoc. split; reflexivity.
Qed.

(** X17: a dismissed dialog kills the child but does not settle the
    promise; when the child then closes without an exit code, the close
    handler reports it as a failure: the promise is rejected with
    ["Process exited with code null"] and the error notification says
    ["failed with code null"]. *)
Theorem X17_dismissal_ends_as_failure_with_code_null :
  forall (s : Session) (i : nat) (p : Prompt),
    promise s = Pending ->
    nth_error (awaiting s) i = Some p ->
    exists s1 added,
      step s (Answered i (dismissal p)) = Some s1
      /\ trace s1 = trace s ++ added
      /\ existsb isKill added = true
      /\ promise s1 = Pending
      /\ promise (onClose s1 None) =
         Rejected (str "Process exited with code null")
      /\ trace (onClose s1 None) =
         trace s1 ++
         [ChannelAppendLine [];
          ChannelAppendLine (str "Process exited with code null");
          ShowErrorMessage
            (str "Git-CD " ++ arg0 s ++ str " failed with code null") []].
Proof.
  intros s i p P E.
  rewrite (step_answered s i p (dismissal p) E), resume_dismissal.
  eexists _, _. split; [reflexivity|].
  split; [reflexivity|].
  split; [destruct p; reflexivity|].
  split; [exact P|].
  apply (onClose_null
           (setPending []
              (emit (match p with
                     | QuickPick _ => [StdinWrite (str "no" ++ [LF]); Kill]
                     | InputBox _ _ => [Kill]
                     end)
                    (setAwaiting (remove_nth i (awaiting s)) s)))).
  exact P.
Qed.

Lemma X17_witness :
  exists s1 added,
    step askedText (Answered 0 (Entered None)) = Some s1
    /\ trace s1 = trace askedText ++ added
    /\ existsb isKill added = true
    /\ promise s1 = Pending
    /\ promise (onClose s1 None) =
       Rejected (str "Process exited with code null")
    /\ trace (onClose s1 None) =
       trace s1 ++
       [ChannelAppendLine [];
        ChannelAppendLine (str "Process exited with code null");
        ShowErrorMessage
          (str "Git-CD " ++ arg0 askedText ++ str " failed with code null")
          []].
Proof.
  exact (X17_dismissal_ends_as_failure_with_code_null
           askedText 0 (InputBox (str "Enter branch name?") (str "main"))
           eq_refl eq_refl).
Defined.

(** ** What the detection patterns match *)

(** A successful search matched at the head of some suffix. *)
Lemma exec_some (r : regex) (s : jsstring) m :
  exec r s = Some m ->
  exists pre suf, s = pre ++ suf /\ match_here r suf = Some m.
Proof.
  induction s as [|c t IH]; cbn [exec].
  - destruct (match_here r []) eqn:E; [|discriminate].
    intros H; inversion H; subst. now exists [], [].
  - destruct (match_here r (c :: t)) eqn:E.
    + intros H; inversion H; subst. now exists [], (c :: t).
    + intros H. destruct (IH H) as (pre & suf & -> & M).
      now exists (c :: pre), suf.
Qed.

Section LiteralRuns.
Variable R : Type.

(** What a literal run consumes when it matches. *)
Lemma rmatch_lits_inv (ci : bool) (m : string) :
  forall (s : jsstring) (cap : option jsstring)
         (k : jsstring -> option jsstring -> option R) (x : R),
    rmatch (lits ci m) s cap k = Some x ->
    exists mid post,
      s = mid ++ post
      /\ (if ci then map upperAscii mid = map upperAscii (str m)
          else mid = str m)
      /\ k post cap = Some x.
Proof.
  induction m as [|a m IH]; intros s cap k x H.
  - exists [], s. destruct ci; auto.
  - cbn [lits rmatch] in H. destruct s as [|c t]; [discriminate|].
    destruct ((if ci then lit_i a else lit a) c) eqn:E; [|discriminate].
    destruct (IH _ _ _ _ H) as (mid & post & -> & M & K).
    exists (c :: mid), post. split; [reflexivity|]. split; [|exact K].
    change (str (String a m)) with (chr a :: str m).
    destruct ci.
    + unfold lit_i in E. apply N.eqb_eq in E. cbn [map]. now rewrite E, M.
    + unfold lit in E. apply N.eqb_eq in E. now rewrite E, M.
Qed.

(** A greedy run over a text made of the class only can take it all. *)
Lemma star_all (p : char -> bool) (ws : jsstring)
      (k : jsstring -> option R) (x : R) :
  forallb p ws = true -> k [] = Some x ->
  exists y, star p ws k = Some y.
Proof.
  intros F K. induction ws as [|c t IH]; [now exists x|].
  cbn [forallb] in F. apply andb_true_iff in F as [Fc Ft].
  cbn [star]. rewrite Fc. destruct (IH Ft) as [y ->]. now exists y.
Qed.
End LiteralRuns.

Lemma test_true (r : regex) (s : jsstring) :
  test r s = true ->
  exists pre suf m, s = pre ++ suf /\ match_here r suf = Some m.
Proof.
  unfold test. destruct (exec r s) as [m|] eqn:E; [|discriminate].
  intros _. destruct (exec_some r s m E) as (pre & suf & A & B).
  now exists pre, suf, m.
Qed.

Lemma test_lits_i_inv (m : string) (text : jsstring) :
  test (lits true m) text = true -> containsIgnoringCase m text.
Proof.
  intros H. destruct (test_true _ _ H) as (pre & suf & x & -> & M).
  unfold match_here in M.
  destruct (rmatch_lits_inv _ true m _ _ _ _ M) as (mid & post & -> & E & _).
  now exists pre, mid, post.
Qed.

Lemma hasYesNoQuestion_iff (text : jsstring) :
  hasYesNoQuestion text = true <-> matchesBinaryPattern text.
Proof.
  split; [|apply hasYesNoQuestion_spec].
  unfold hasYesNoQuestion, yesNoPatterns. cbn [existsb].
  rewrite orb_false_r. intros H. apply orb_true_iff in H as [H|H].
  - left. now apply test_lits_i_inv.
  - right. now apply test_lits_i_inv.
Qed.

(** X18: a chunk is classified as a binary prompt exactly when its text
    holds [[y/n]] or [(yes/no)] somewhere, in any letter-casing: the
    two patterns match nothing else. *)
Theorem X18_binary_exactly_on_the_markers :
  forall text : jsstring,
    classify text = Binary <-> matchesBinaryPattern text.
Proof.
  intros text. rewrite <- hasYesNoQuestion_iff. unfold classify.
  destruct (hasYesNoQuestion text); [tauto|].
  destruct (hasTextInputQuestion text); split; discriminate.
Qed.

Lemma X18_witness :
  matchesBinaryPattern (str "Push to origin (YES/no)")
  /\ classify (str "Push to origin (YES/no)") = Binary.
Proof.
  assert (M : matchesBinaryPattern (str "Push to origin (YES/no)")).
  { right. exists (str "Push to origin "), (str "(YES/no)"), [].
    split; reflexivity. }
  split; [exact M|].
  exact (proj2 (X18_binary_exactly_on_the_markers
                  (str "Push to origin (YES/no)")) M).
Defined.

Lemma includes_app (c : char) (a b : jsstring) :
  includes c (a ++ b) = includes c a || includes c b.
Proof. unfold includes. apply existsb_app. Qed.

Lemma upperAscii_question (c : char) :
  upperAscii c = chr "?" -> c = chr "?".
Proof.
  unfold upperAscii, chr. simpl N_of_ascii.
  destruct ((97 <=? c) && (c <=? 122))%N eqn:E; [|auto].
  apply andb_true_iff in E as [A B].
  apply N.leb_le in A. apply N.leb_le in B. lia.
Qed.

(** A text equal to a literal that ends in a question mark, up to
    case, holds a question mark. *)
Lemma ci_literal_with_question (m : string) (mid : jsstring) :
  map upperAscii mid = map upperAscii (str (m ++ "?")) ->
  includes (chr "?") mid = true.
Proof.
  revert mid. induction m as [|a m IH]; intros mid H.
  - destruct mid as [|c [|d t]]; try discriminate.
    inversion H as [E]. apply upperAscii_question in E. subst c. reflexivity.
  - destruct mid as [|c t]; [discriminate|].
    change (str (String a m ++ "?")) with (chr a :: str (m ++ "?")) in H.
    inversion H as [[E1 E2]]. unfold includes. cbn [existsb].
    apply IH in E2. unfold includes in E2. rewrite E2. apply orb_true_r.
Qed.

Lemma containsIgnoringCase_question (m : string) (text : jsstring) :
  containsIgnoringCase (m ++ "?") text -> includes (chr "?") text = true.
Proof.
  intros (pre & mid & post & -> & H).
  rewrite !includes_app, (ci_literal_with_question m mid H).
  now rewrite orb_true_r.
Qed.

Lemma hasTextInputQuestion_sound (text : jsstring) :
  hasTextInputQuestion text = true ->
  includes (chr "?") text = true
  \/ containsText "Default:" text
  \/ containsIgnoringCase "do you want" text.
Proof.
  unfold hasTextInputQuestion, textInputPatterns. cbn [existsb].
  rewrite orb_false_r. intros H.
  apply orb_true_iff in H as [H|H];
    [|apply orb_true_iff in H as [H|H];
      [|apply orb_true_iff in H as [H|H];
        [|apply orb_true_iff in H as [H|H]]]].
  - left. destruct (test_true _ _ H) as (pre & suf & x & -> & M).
    unfold match_here, seq in M. cbn [fold_right rmatch] in M.
    destruct suf as [|c t]; [discriminate|].
    unfold lit in M at 1. destruct (N.eqb_spec c (chr "?")) as [->|];
      [|discriminate].
    rewrite includes_app. unfold includes at 2. cbn [existsb].
    rewrite N.eqb_refl. now rewrite orb_true_r.
  - right. left. destruct (test_true _ _ H) as (pre & suf & x & -> & M).
    unfold match_here, seq in M. cbn [fold_right] in M.
    change (rmatch (Seq ?a ?b) ?s ?c ?k)
      with (rmatch a s c (fun s' cap' => rmatch b s' cap' k)) in M.
    destruct (rmatch_lits_inv _ false "Default:" _ _ _ _ M)
      as (mid & post & -> & -> & _).
    now exists pre, post.
  - left. apply (containsIgnoringCase_question "continue").
    now apply test_lits_i_inv.
  - left. apply (containsIgnoringCase_question "proceed").
    now apply test_lits_i_inv.
  - right. right. now apply test_lits_i_inv.
Qed.

(** X19: no dialog is raised for plain output: a chunk is classified as
    a prompt only if its text holds a question mark, the text
    [Default:], the words [do you want] in any letter-casing, or one of
    the binary markers. *)
Theorem X19_no_prompt_without_a_trigger :
  forall text : jsstring,
    classify text <> NoPrompt ->
    includes (chr "?") text = true
    \/ containsText "Default:" text
    \/ containsIgnoringCase "do you want" text
    \/ matchesBinaryPattern text.
Proof.
  intros text. unfold classify.
  destruct (hasYesNoQuestion text) eqn:Y.
  - intros _. right. right. right. now apply hasYesNoQuestion_iff.
  - destruct (hasTextInputQuestion text) eqn:T; [|contradiction].
    intros _. destruct (hasTextInputQuestion_sound text T) as [H|[H|H]]; auto.
Qed.

Lemma X19_witness :
  classify (str "Default: main") <> NoPrompt
  /\ (includes (chr "?") (str "Default: main") = true
      \/ containsText "Default:" (str "Default: main")
      \/ containsIgnoringCase "do you want" (str "Default: main")
      \/ matchesBinaryPattern (str "Default: main")).
Proof.
  assert (C : classify (str "Default: main") <> NoPrompt) by discriminate.
  split; [exact C|].
  exact (X19_no_prompt_without_a_trigger (str "Default: main") C).
Defined.

Lemma question_at_end (pre ws : jsstring) :
  forallb isWhiteSpace ws = true ->
  hasTextInputQuestion (pre ++ chr "?" :: ws) = true.
Proof.
  intros F. unfold hasTextInputQuestion, textInputPatterns. cbn [existsb].
  assert (M : exists m,
             match_here (seq [Chr (lit "?"); Star space; Eos])
                        (chr "?" :: ws) = Some m).
  { unfold match_here, seq. cbn [fold_right rmatch].
    unfold lit at 1. rewrite N.eqb_refl.
    apply star_all with (x := ([], None)); [exact F|reflexivity]. }
  destruct M as [m M]. now rewrite (test_suffix _ pre _ m M).
Qed.

(** X20: a chunk whose text ends in a question mark, followed by white
    space at most, and holds no binary marker is a free-text prompt:
    with a writable stdin the handler shows the input box. *)
Theorem X20_question_mark_at_the_end_asks_for_text :
  forall (s : Session) (data pre ws : jsstring),
    stripAnsiCodes data = pre ++ chr "?" :: ws ->
    forallb isWhiteSpace ws = true ->
    ~ matchesBinaryPattern (stripAnsiCodes data) ->
    classify (stripAnsiCodes data) = FreeText
    /\ kind (snd (onStdoutData s data true)) = FreeText.
Proof.
  intros s data pre ws E F B.
  assert (C : classify (stripAnsiCodes data) = FreeText).
  { unfold classify.
    destruct (hasYesNoQuestion (stripAnsiCodes data)) eqn:Y.
    - apply hasYesNoQuestion_iff in Y. contradiction.
    - rewrite E. now rewrite question_at_end. }
  split; [exact C|]. now rewrite onStdoutData_kind.
Qed.

Lemma X20_witness :
  classify (stripAnsiCodes (str "Which branch?  ")) = FreeText
  /\ kind (snd (onStdoutData fresh (str "Which branch?  ") true)) = FreeText.
Proof.
  apply (X20_question_mark_at_the_end_asks_for_text
           fresh (str "Which branch?  ") (str "Which branch") (str "  ")).
  - reflexivity.
  - reflexivity.
  - intros M. apply hasYesNoQuestion_iff in M. discriminate M.
Defined.

(** ** More on the sanitizer *)

Lemma trimEnd_trimmedFrom (l : jsstring) : trimmedFrom (trimEnd l) l.
Proof.
  unfold trimmedFrom. induction l as [|c t IH]; [now exists []|].
  destruct IH as (w & E & F). cbn [trimEnd].
  destruct (trimEnd t) as [|x r] eqn:T.
  - cbn [app] in E. subst w. destruct (isWhiteSpace c) eqn:W.
    + exists (c :: t). split; [reflexivity|].
      cbn [forallb]. now rewrite W, F.
    + exists t. split; [reflexivity|exact F].
  - exists w. split; [|exact F]. rewrite E at 1. reflexivity.
Qed.

Lemma trimEnd_no_trailing (l : jsstring) :
  endsInWhiteSpace (trimEnd l) = false.
Proof.
  induction l as [|c t IH]; [reflexivity|].
  cbn [trimEnd]. destruct (trimEnd t) as [|x r] eqn:T.
  - destruct (isWhiteSpace c) eqn:W; [reflexivity|]. simpl. exact W.
  - unfold endsInWhiteSpace in *. cbn [last]. exact IH.
Qed.

Lemma includes_trimEnd (c : char) (l : jsstring) :
  includes c l = false -> includes c (trimEnd l) = false.
Proof.
  destruct (trimEnd_trimmedFrom l) as (w & E & _).
  intros H. rewrite E, includes_app in H.
  now apply orb_false_iff in H as [H _].
Qed.

Lemma split_lines_no_LF (s : jsstring) :
  Forall (fun l => includes LF l = false) (split LF s).
Proof.
  induction s as [|c t IH]; [repeat constructor|].
  cbn [split]. destruct (c =? LF)%N eqn:E.
  - constructor; [reflexivity|exact IH].
  - destruct (split LF t) as [|l ls]; [repeat constructor; simpl;
                                       now rewrite E|].
    inversion IH as [|? ? Hl Hls]; subst.
    constructor; [|exact Hls].
    unfold includes in *. cbn [existsb]. now rewrite E, Hl.
Qed.

Lemma split_app_LF (l x : jsstring) :
  includes LF l = false ->
  split LF (l ++ LF :: x) = l :: split LF x.
Proof.
  induction l as [|c t IH]; intros H.
  - simpl. reflexivity.
  - unfold includes in H. cbn [existsb] in H.
    apply orb_false_iff in H as [Hc Ht].
    cbn [app split]. rewrite Hc, (IH Ht). reflexivity.
Qed.

Lemma split_no_LF (l : jsstring) :
  includes LF l = false -> split LF l = [l].
Proof.
  induction l as [|c t IH]; intros H; [reflexivity|].
  unfold includes in H. cbn [existsb] in H.
  apply orb_false_iff in H as [Hc Ht].
  cbn [split]. rewrite Hc, (IH Ht). reflexivity.
Qed.

(** Splitting what was joined gives the lines back. *)
Lemma split_join (ls : list jsstring) :
  ls <> [] ->
  Forall (fun l => includes LF l = false) ls ->
  split LF (join LF ls) = ls.
Proof.
  induction ls as [|l ls IH]; intros N F; [contradiction|].
  inversion F as [|? ? Hl Hls]; subst.
  destruct ls as [|l2 rest].
  - simpl. now apply split_no_LF.
  - change (join LF (l :: l2 :: rest)) with (l ++ LF :: join LF (l2 :: rest)).
    rewrite (split_app_LF _ _ Hl), IH; [reflexivity|discriminate|exact Hls].
Qed.

Lemma split_trimLines (u : jsstring) :
  split LF (trimLines u) = map trimEnd (split LF u).
Proof.
  unfold trimLines. apply split_join.
  - pose proof (split_nonempty LF u) as N.
    destruct (split LF u); [contradiction|discriminate].
  - pose proof (split_lines_no_LF u) as F.
    induction F as [|l ls Hl Hls IH]; constructor;
      [now apply includes_trimEnd|exact IH].
Qed.

(** X21: sanitizing keeps the lines one for one: each line of the
    result is the line of the colour-stripped text at the same place
    without the white space at its end (leading white space stays), and
    no line of the result ends in white space.  A carriage return
    before a line feed is white space at the end of its line, so it
    goes too. *)
Theorem X21_sanitize_trims_line_by_line :
  forall T : jsstring,
    split LF (sanitize T) = map trimEnd (split LF (stripAnsiCodes T))
    /\ Forall2 trimmedFrom (split LF (sanitize T))
                           (split LF (stripAnsiCodes T))
    /\ Forall (fun l => endsInWhiteSpace l = false) (split LF (sanitize T)).
Proof.
  intros T. unfold sanitize.
  rewrite split_trimLines. split; [reflexivity|]. split.
  - induction (split LF (stripAnsiCodes T)) as [|l ls IH]; constructor;
      [apply trimEnd_trimmedFrom|exact IH].
  - induction (split LF (stripAnsiCodes T)) as [|l ls IH]; constructor;
      [apply trimEnd_no_trailing|exact IH].
Qed.

(** X22: text without an ESC character passes the colour stripper
    unchanged. *)
Theorem X22_plain_text_is_not_stripped :
  forall T : jsstring,
    ~ In ESC T -> stripAnsiCodes T = T.
Proof.
  intros T H. unfold stripAnsiCodes.
  apply replace_all_no_match. now apply no_ESC_no_ansi.
Qed.

Lemma X22_witness :
  stripAnsiCodes (str "Already up to date [main]") =
  str "Already up to date [main]".
Proof.
  apply (X22_plain_text_is_not_stripped (str "Already up to date [main]")).
  intros F. vm_compute in F.
  repeat (destruct F as [F|F]; [discriminate F|]). exact F.
Defined.

Lemma skipParams_split (t : jsstring) :
  exists p, t = p ++ skipParams t /\ forallb isAnsiChar p = true.
Proof.
  induction t as [|c t IH]; [now exists []|].
  cbn [skipParams]. destruct (isAnsiParam c) eqn:P.
  - destruct IH as (p & E & F). exists (c :: p).
    split; [simpl; now rewrite <- E|].
    cbn [forallb]. unfold isAnsiChar at 1. rewrite P, F.
    now rewrite !orb_true_r.
  - now exists [].
Qed.

(** A match of the colour pattern consumes colour characters only. *)
Lemma ansiRest_split (s r : jsstring) :
  ansiRest s = Some r ->
  exists p, s = p ++ r /\ forallb isAnsiChar p = true.
Proof.
  destruct s as [|c1 [|c2 t]]; simpl; try discriminate.
  destruct (N.eqb_spec c1 27) as [->|]; [|discriminate].
  destruct (N.eqb_spec c2 91) as [->|]; [|discriminate].
  simpl. unfold afterParams.
  destruct (skipParams_split t) as (p & E & F).
  destruct (skipParams t) as [|c t'] eqn:K; [discriminate|].
  destruct (N.eqb_spec c 109) as [->|]; [|discriminate].
  intros H; inversion H; subst r.
  exists (27 :: 91 :: p ++ [109])%N. split.
  - simpl. rewrite <- app_assoc. simpl. now rewrite <- E.
  - cbn [forallb]. rewrite forallb_app, F. reflexivity.
Qed.

Lemma strip_keeps_other_characters (s : jsstring) :
  forall skip,
    forallb isAnsiChar (firstn skip s) = true ->
    filter (fun c => negb (isAnsiChar c))
           (replace_all_from ansiPattern skip s)
    = filter (fun c => negb (isAnsiChar c)) s.
Proof.
  induction s as [|c t IH]; intros skip F; [reflexivity|].
  cbn [replace_all_from]. destruct skip as [|n].
  - rewrite match_here_ansi.
    destruct (ansiRest (c :: t)) as [r|] eqn:E; cbn [option_map].
    + destruct (ansiRest_split _ _ E) as (p & Sp & P).
      destruct (List.length (c :: t) - List.length r) as [|n] eqn:L.
      * cbn [filter]. now rewrite (IH 0 eq_refl).
      * assert (Lp : List.length p = S n).
        { rewrite Sp, length_app in L. lia. }
        destruct p as [|x p]; [discriminate|].
        cbn [app] in Sp. injection Sp as Ex Et. cbn [forallb] in P.
        apply andb_true_iff in P as [Pc Pp].
        cbn [filter]. rewrite Ex, Pc. cbn [negb].
        apply IH. simpl in Lp. injection Lp as Lp.
        rewrite Et, <- Lp, firstn_app, Nat.sub_diag, firstn_all. simpl.
        now rewrite app_nil_r.
    + cbn [filter]. now rewrite (IH 0 eq_refl).
  - cbn [firstn forallb] in F. apply andb_true_iff in F as [Fc Ft].
    cbn [filter]. rewrite Fc. cbn [negb]. now apply IH.
Qed.

(** X23: the colour stripper deletes nothing but ESC, [[], digits,
    semicolons and the letter [m]: every other character of the chunk
    is kept, in order, and the result is never longer than the
    chunk. *)
Theorem X23_strip_deletes_colour_characters_only :
  forall T : jsstring,
    filter (fun c => negb (isAnsiChar c)) (stripAnsiCodes T)
    = filter (fun c => negb (isAnsiChar c)) T
    /\ List.length (stripAnsiCodes T) <= List.length T.
Proof.
  intros T. split.
  - apply strip_keeps_other_characters. reflexivity.
  - apply replace_all_from_length.
Qed.

(** ** The question text and the default value *)

Section Continuations.
Variable R : Type.

Lemma star_k (p : char -> bool) (s : jsstring)
      (k : jsstring -> option R) (x : R) :
  star p s k = Some x -> exists s', k s' = Some x.
Proof.
  induction s as [|c t IH]; cbn [star]; [intros H; now exists []|].
  destruct (p c).
  - destruct (star p t k) as [y|] eqn:E.
    + intros H; inversion H; subst. now apply IH.
    + intros H. now exists (c :: t).
  - intros H. now exists (c :: t).
Qed.

(** A lazy run stops after some characters of the class. *)
Lemma lazy_star_inv (p : char -> bool) (s : jsstring)
      (k : jsstring -> option R) (x : R) :
  lazy_star p s k = Some x ->
  exists n,
    n <= List.length s
    /\ forallb p (firstn n s) = true
    /\ k (skipn n s) = Some x.
Proof.
  induction s as [|c t IH]; cbn [lazy_star].
  - destruct (k []) eqn:E; [|discriminate].
    intros H; inversion H; subst. exists 0. simpl. auto.
  - destruct (k (c :: t)) eqn:E.
    + intros H; inversion H; subst. exists 0. simpl. split; [lia|]. auto.
    + destruct (p c) eqn:P; [|discriminate].
      intros H. destruct (IH H) as (n & L & F & K).
      exists (S n). simpl. rewrite P, F. split; [lia|]. auto.
Qed.

(** The result of a match is the result of its continuation. *)
Lemma rmatch_k (r : regex) :
  forall (s : jsstring) (cap : option jsstring)
         (k : jsstring -> option jsstring -> option R) (x : R),
    rmatch r s cap k = Some x -> exists s' cap', k s' cap' = Some x.
Proof.
  induction r as [|p|p|p|p|p| | |r IH|r1 IH1 r2 IH2];
    intros s cap k x; cbn [rmatch].
  - intros H. now exists s, cap.
  - destruct s as [|c t]; [discriminate|].
    destruct (p c); [|discriminate]. intros H. now exists t, cap.
  - intros H. apply star_k in H as [s' H]. now exists s', cap.
  - destruct s as [|c t]; [discriminate|].
    destruct (p c); [|discriminate].
    intros H. apply star_k in H as [s' H]. now exists s', cap.
  - destruct s as [|c t]; [discriminate|].
    destruct (p c); [|discriminate].
    intros H. apply lazy_star_inv in H as (n & _ & _ & H).
    now exists (skipn n t), cap.
  - destruct s as [|c t]; [intros H; now exists [], cap|].
    destruct (p c).
    + destruct (k t cap) eqn:E.
      * intros H; inversion H; subst. now exists t, cap.
      * intros H. now exists (c :: t), cap.
    + intros H. now exists (c :: t), cap.
  - destruct s; [|discriminate]. intros H. now exists [], cap.
  - destruct s as [|c t]; [intros H; now exists [], cap|].
    destruct (isLineTerminator c); [|discriminate].
    intros H. now exists (c :: t), cap.
  - intros H. apply IH in H as (s' & cap' & H). eauto.
  - intros H. apply IH1 in H as (s' & cap' & H). now apply IH2 in H.
Qed.
End Continuations.

(** A pattern that ends in [$] (without the [m] flag) matches up to the
    end of the text. *)
Lemma rmatch_seq_eos (rs : list regex) :
  forall (s : jsstring) (cap : option jsstring) x,
    rmatch (seq (rs ++ [Eos])) s cap (fun s' c => Some (s', c)) = Some x ->
    fst x = [].
Proof.
  induction rs as [|r rs IH]; intros s cap x.
  - unfold seq. cbn [app fold_right rmatch].
    destruct s; [|discriminate]. intros H; inversion H; reflexivity.
  - change (seq ((r :: rs) ++ [Eos])) with (Seq r (seq (rs ++ [Eos]))).
    cbn [rmatch]. intros H.
    apply rmatch_k in H as (s' & cap' & H). now apply IH in H.
Qed.

Lemma replace_first_prefix (rs : list regex) (s : jsstring) :
  isPrefixOf (replace_first (seq (rs ++ [Eos])) s) s.
Proof.
  unfold isPrefixOf. induction s as [|c t IH]; cbn [replace_first].
  - destruct (match_here (seq (rs ++ [Eos])) []) as [[s' cap]|] eqn:E.
    + apply rmatch_seq_eos in E. simpl in E. subst. now exists [].
    + now exists [].
  - destruct (match_here (seq (rs ++ [Eos])) (c :: t)) as [[s' cap]|] eqn:E.
    + apply rmatch_seq_eos in E. simpl in E. subst. now exists (c :: t).
    + destruct IH as [rest E']. exists rest. simpl. now rewrite <- E'.
Qed.

Lemma stripMarker_prefix (q : jsstring) : isPrefixOf (stripMarker q) q.
Proof.
  unfold stripMarker.
  assert (T : forall m, trailingMarker m =
                        seq ([Star space; lits true m; Star space;
                              Opt (lit_i ":"); Star space] ++ [Eos]))
    by reflexivity.
  rewrite !T.
  destruct (replace_first_prefix
              [Star space; lits true "[y/n]"; Star space;
               Opt (lit_i ":"); Star space] q) as [r1 E1].
  destruct (replace_first_prefix
              [Star space; lits true "(yes/no)"; Star space;
               Opt (lit_i ":"); Star space]
              (replace_first
                 (seq ([Star space; lits true "[y/n]"; Star space;
                        Opt (lit_i ":"); Star space] ++ [Eos])) q))
    as [r2 E2].
  exists (r2 ++ r1). rewrite app_assoc, <- E2. exact E1.
Qed.

(** X24: the question shown in the quick pick is the extracted question
    line cut at some point: removing the trailing marker never changes
    or adds a character before the cut. *)
Theorem X24_marker_removal_only_cuts_the_end :
  forall (s : Session) (data q : jsstring) (writable : bool),
    snd (onStdoutData s data writable) = Some (QuickPick q) ->
    isPrefixOf q (extractQuestion
                    (stripAnsiCodes (pendingOutput s ++ data))
                    (stripAnsiCodes data)).
Proof.
  intros s data q writable H. rewrite onStdoutData_prompt in H.
  destruct (if writable then classify (stripAnsiCodes data) else NoPrompt);
    inversion H; subst. apply stripMarker_prefix.
Qed.

Lemma X24_witness :
  isPrefixOf (str "Delete branch foo?")
             (extractQuestion
                (stripAnsiCodes
                   (pendingOutput fresh ++ str "Delete branch foo? [y/n]: "))
                (stripAnsiCodes (str "Delete branch foo? [y/n]: "))).
Proof.
  exact (X24_marker_removal_only_cuts_the_end
           fresh (str "Delete branch foo? [y/n]: ")
           (str "Delete branch foo?") true eq_refl).
Defined.

Lemma forallb_trimStart (p : char -> bool) (s : jsstring) :
  forallb p s = true -> forallb p (trimStart s) = true.
Proof.
  induction s as [|c t IH]; [auto|].
  cbn [trimStart]. destruct (isWhiteSpace c); [|auto].
  cbn [forallb]. intros H. apply andb_true_iff in H as [_ H]. auto.
Qed.

Lemma forallb_trimEnd (p : char -> bool) (s : jsstring) :
  forallb p s = true -> forallb p (trimEnd s) = true.
Proof.
  destruct (trimEnd_trimmedFrom s) as (w & E & _).
  intros H. rewrite E, forallb_app in H.
  now apply andb_true_iff in H as [H _].
Qed.

Lemma defaultPattern_capture (text rest g : jsstring) :
  exec defaultPattern text = Some (rest, Some g) ->
  containsText "Default:" text /\ forallb dot g = true.
Proof.
  intros H. apply exec_some in H as (pre & suf & -> & M).
  unfold match_here, defaultPattern, seq in M. cbn [fold_right] in M.
  change (rmatch (Seq ?a ?b) ?s ?c ?k)
    with (rmatch a s c (fun s' cap' => rmatch b s' cap' k)) in M.
  apply rmatch_lits_inv in M as (mid & post & -> & -> & M).
  split; [now exists pre, post|].
  cbn [rmatch] in M. apply star_k in M as (s1 & M).
  destruct s1 as [|c t]; [discriminate|].
  destruct (dot c) eqn:D; [|discriminate].
  apply lazy_star_inv in M as (n & L & F & M).
  assert (G : firstn (List.length (c :: t) - List.length (skipn n t)) (c :: t)
              = c :: firstn n t).
  { rewrite length_skipn. cbn [List.length].
    replace (S (List.length t) - (List.length t - n)) with (S n) by lia.
    reflexivity. }
  rewrite G in M.
  destruct (skipn n t) as [|d u].
  - inversion M; subst. cbn [forallb]. now rewrite D, F.
  - destruct (isLineTerminator d); [|discriminate].
    inversion M; subst. cbn [forallb]. now rewrite D, F.
Qed.

(** X25: the default value offered in the input box is not empty only
    if the accumulated text holds [Default:], and it never holds a line
    terminator: it is taken from within one line. *)
Theorem X25_default_value_is_one_line_after_the_label :
  forall text : jsstring,
    forallb dot (extractDefault text) = true
    /\ (extractDefault text <> [] -> containsText "Default:" text).
Proof.
  intros text. unfold extractDefault, match_group1.
  destruct (exec defaultPattern text) as [[rest [g|]]|] eqn:E.
  - destruct (defaultPattern_capture _ _ _ E) as [C F].
    split; [|intros _; exact C].
    unfold trim. now apply forallb_trimEnd, forallb_trimStart.
  - split; [reflexivity|]. intros H. now contradiction H.
  - split; [reflexivity|]. intros H. now contradiction H.
Qed.

Lemma X25_witness :
  extractDefault (str "Tag?" ++ LF :: str "Default: v1.2.0  " ++ LF ::
                  str "(enter to accept)") = str "v1.2.0"
  /\ containsText "Default:"
       (str "Tag?" ++ LF :: str "Default: v1.2.0  " ++ LF ::
        str "(enter to accept)").
Proof.
  split; [reflexivity|].
  apply (proj2 (X25_default_value_is_one_line_after_the_label
                  (str "Tag?" ++ LF :: str "Default: v1.2.0  " ++ LF ::
                   str "(enter to accept)"))).
  discriminate.
Defined.

(** ** Standard error, and answers that are not dismissals *)

(** X26: nothing that arrives on standard error raises a dialog: a run
    of stderr chunks, whatever their text, only appends each chunk,
    sanitized, to the output channel (and raw to [stderr]); the pending
    buffer, the waiting dialogs, [stdout] and the promise stay as they
    are, and nothing is written to the child. *)
Theorem X26_stderr_is_displayed_and_nothing_else :
  forall (s : Session) (es : list Event) (s' : Session),
    run s es = Some s' ->
    forallb isStderrData es = true ->
    pendingOutput s' = pendingOutput s
    /\ awaiting s' = awaiting s
    /\ stdout s' = stdout s
    /\ promise s' = promise s
    /\ trace s' =
       trace s ++ map (fun d => ChannelAppend (sanitize d)) (stderrChunks es).
Proof.
  intros s es. revert s.
  induction es as [|e es IH]; intros s s' H F; simpl in H.
  - inversion H; subst. simpl. now rewrite app_nil_r.
  - destruct e as [| data | | |]; try discriminate F.
    cbn [forallb isStderrData andb] in F.
    cbn [step] in H.
    destruct (IH _ _ H F) as (A & B & C & D & E).
    rewrite A, B, C, D, E. cbn [onStderrData pendingOutput awaiting stdout
                                 promise trace stderrChunks map].
    rewrite <- app_assoc. repeat split; reflexivity.
Qed.

Lemma X26_witness :
  exists s',
    run fresh [StderrData (str "Continue? [y/n]: ")] = Some s'
    /\ awaiting s' = awaiting fresh
    /\ trace s' = trace fresh ++ [ChannelAppend (str "Continue? [y/n]:")].
Proof.
  eexists. split; [reflexivity|].
  destruct (X26_stderr_is_displayed_and_nothing_else
              fresh [StderrData (str "Continue? [y/n]: ")] _
              eq_refl eq_refl) as (_ & A & _ & _ & T).
  split; [exact A|exact T].
Defined.

(** X27: choosing in the quick pick writes the chosen word in lower
    case and a line feed to the child's stdin, ["yes\n"] or ["no\n"],
    logs the choice and clears the pending buffer; the child is not
    killed.  Choosing "No" writes what a dismissal writes, without the
    kill. *)
Theorem X27_a_choice_is_written_in_lower_case :
  forall (s : Session) (i : nat) (q : jsstring) (item : QuickPickItem),
    nth_error (awaiting s) i = Some (QuickPick q) ->
    exists s',
      step s (Answered i (Picked (Some item))) = Some s'
      /\ trace s' =
         trace s ++
         [StdinWrite (match item with
                      | Yes => str "yes" ++ [LF]
                      | No => str "no" ++ [LF]
                      end);
          ChannelAppendLine (match item with
                             | Yes => str "[User selected: Yes]"
                             | No => str "[User selected: No]"
                             end)]
      /\ pendingOutput s' = []
      /\ awaiting s' = remove_nth i (awaiting s)
      /\ promise s' = promise s.
Proof.
  intros s i q item H.
  rewrite (step_answered s i _ (Picked (Some item)) H).
  destruct item; eexists; (split; [reflexivity|]);
    repeat split; reflexivity.
Qed.

Lemma X27_witness :
  exists s',
    step askedBinary (Answered 0 (Picked (Some No))) = Some s'
    /\ trace s' =
       trace askedBinary ++
       [StdinWrite (str "no" ++ [LF]);
        ChannelAppendLine (str "[User selected: No]")]
    /\ pendingOutput s' = []
    /\ awaiting s' = remove_nth 0 (awaiting askedBinary)
    /\ promise s' = promise askedBinary.
Proof.
  exact (X27_a_choice_is_written_in_lower_case
           askedBinary 0 (str "Delete branch foo?") No eq_refl).
Defined.

(** X28: a text entered in the input box, when it is not empty, is
    written to the child's stdin as it is, followed by one line feed,
    and logged as entered; the pending buffer is cleared and the child
    is not killed. *)
Theorem X28_entered_text_is_written_unchanged :
  forall (s : Session) (i : nat) (q d : jsstring) (c : char)
         (answer : jsstring),
    nth_error (awaiting s) i = Some (InputBox q d) ->
    exists s',
      step s (Answered i (Entered (Some (c :: answer)))) = Some s'
      /\ trace s' =
         trace s ++
         [StdinWrite ((c :: answer) ++ [LF]);
          ChannelAppendLine
            (str "[User entered: " ++ (c :: answer) ++ str "]")]
      /\ pendingOutput s' = []
      /\ awaiting s' = remove_nth i (awaiting s)
      /\ promise s' = promise s.
Proof.
  intros s i q d c answer H.
  rewrite (step_answered s i _ (Entered (Some (c :: answer))) H).
  eexists. split; [reflexivity|]. repeat split; reflexivity.
Qed.

Lemma X28_witness :
  exists s',
    step askedText (Answered 0 (Entered (Some (str "feature/x y")))) = Some s'
    /\ trace s' =
       trace askedText ++
       [StdinWrite (str "feature/x y" ++ [LF]);
        ChannelAppendLine
          (str "[User entered: " ++ str "feature/x y" ++ str "]")]
    /\ pendingOutput s' = []
    /\ awaiting s' = remove_nth 0 (awaiting askedText)
    /\ promise s' = promise askedText.
Proof.
  exact (X28_entered_text_is_written_unchanged
           askedText 0 (str "Enter branch name?") (str "main")
           (chr "f") (str "eature/x y") eq_refl).
Defined.
